(** * atomic402: payment-gated access on Sui

  A shallow embedding of
  - the Move module [x402_content::content_access]
    (move/sources/content_access.move), and
  - the TypeScript SDK classes [X402Server] and [X402Client]
    (packages/sdk/src/server.ts and client.ts),
  with the properties the protocol description states about them. *)

From stdpp Require Import gmap strings list fin_maps pretty.
From Equations Require Import Equations.
From Stdlib Require Import ZArith NArith Lia Ascii.
From Stdlib.Strings Require Import Byte.

Open Scope Z_scope.

(* ===================================================================== *)
(** * Part I: the Move module [content_access]                           *)
(* ===================================================================== *)

Module ContentAccess.

(** ** The Sui framework, as far as the module uses it *)

(** An account address. *)
Abbreviation address := N (only parsing).

(** An object [ID].  The framework derives it from the digest of the
    creating transaction and the number of objects that transaction has
    created so far; the model keeps that pair instead of its hash. *)
Abbreviation ID := (N * N)%type (only parsing).

(** [u64] values are integers in [0, 2^64); the module only compares and
    copies them. *)
Abbreviation u64 := Z (only parsing).

Record TxContext := mkTxContext {
  sender : address;
  tx_hash : N;
  ids_created : N
}.

Record Clock := mkClock { timestamp_ms : u64 }.

(** [Coin<SUI>]: an object holding a balance. *)
Record Coin := mkCoin {
  coin_id : ID;
  coin_value : u64
}.

(** ** Errors *)

Definition EInsufficientPayment : u64 := 0.
Definition EContentNotFound : u64 := 1.

(** ** Objects *)

Record ContentRegistry := mkContentRegistry {
  registry_id : ID;
  registry_owner : address
}.

Record ContentItem := mkContentItem {
  id : ID;
  title : list byte;
  description : list byte;
  price : u64;
  content_url : list byte;
  creator : address
}.

Record AccessReceipt := mkAccessReceipt {
  receipt_id : ID;
  content_id : ID;
  content_title : list byte;
  price_paid : u64;
  purchaser : address;
  timestamp : u64
}.

(** ** Events *)

Inductive Event :=
| ContentCreated (content_id : ID) (title : list byte) (price : u64)
                 (creator : address)
| ContentPurchased (content_id receipt_id : ID) (purchaser : address)
                   (price_paid : u64) (timestamp : u64).

(** ** Execution of a Move call *)

Inductive Object :=
| OCoin (c : Coin)
| ORegistry (r : ContentRegistry)
| OContent (c : ContentItem)
| OReceipt (r : AccessReceipt).

Definition object_id (o : Object) : ID :=
  match o with
  | OCoin c => coin_id c
  | ORegistry r => registry_id r
  | OContent c => id c
  | OReceipt r => receipt_id r
  end.

Inductive Owner :=
| AddressOwner (a : address)
| Shared.

(** What a call has done so far: the context it advances, the objects it
    has handed to [transfer], and the events it has emitted, oldest
    first. *)
Record TxState := mkTxState {
  ctx : TxContext;
  transfers : list (Owner * Object);
  emitted : list Event
}.

(** A Move call either finishes or aborts with a code; an abort discards
    everything the call did. *)
Inductive Result (A : Type) :=
| Done (a : A) (st : TxState)
| Abort (code : u64).
Arguments Done {A} a st.
Arguments Abort {A} code.

Definition Move (A : Type) := TxState -> Result A.

Definition ret {A} (a : A) : Move A := fun st => Done a st.

Definition bind {A B} (m : Move A) (k : A -> Move B) : Move B :=
  fun st =>
    match m st with
    | Done a st' => k a st'
    | Abort code => Abort code
    end.

Declare Scope move_scope.
Delimit Scope move_scope with move.
Notation "x <- m ;; k" := (bind m (fun x => k))
  (at level 100, m at next level, right associativity) : move_scope.
Notation "m ;; k" := (bind m (fun _ => k))
  (at level 100, right associativity) : move_scope.
Open Scope move_scope.

(** [assert!(cond, code)] *)
Definition assert (cond : bool) (code : u64) : Move unit :=
  fun st => if cond then Done tt st else Abort code.

(** [ctx.sender()] *)
Definition ctx_sender : Move address :=
  fun st => Done (sender (ctx st)) st.

(** [object::new(ctx)] *)
Definition object_new : Move ID :=
  fun st =>
    let c := ctx st in
    Done (tx_hash c, ids_created c)
         {| ctx := {| sender := sender c; tx_hash := tx_hash c;
                      ids_created := N.succ (ids_created c) |};
            transfers := transfers st;
            emitted := emitted st |}.

(** [transfer::public_transfer(obj, recipient)] *)
Definition public_transfer (obj : Object) (recipient : address) : Move unit :=
  fun st =>
    Done tt {| ctx := ctx st;
               transfers := transfers st ++ [(AddressOwner recipient, obj)];
               emitted := emitted st |}.

(** [transfer::share_object(obj)] *)
Definition share_object (obj : Object) : Move unit :=
  fun st =>
    Done tt {| ctx := ctx st;
               transfers := transfers st ++ [(Shared, obj)];
               emitted := emitted st |}.

(** [event::emit(ev)] *)
Definition emit (ev : Event) : Move unit :=
  fun st =>
    Done tt {| ctx := ctx st;
               transfers := transfers st;
               emitted := emitted st ++ [ev] |}.

(** ** Public functions *)

Definition init : Move unit :=
  rid <- object_new ;;
  s <- ctx_sender ;;
  share_object (ORegistry {| registry_id := rid; registry_owner := s |}).

Definition create_content (title description : list byte) (price : u64)
    (content_url : list byte) : Move unit :=
  content_id <- object_new ;;
  let content_id_inner := content_id in
  s <- ctx_sender ;;
  let content := {| id := content_id; title := title;
                    description := description; price := price;
                    content_url := content_url; creator := s |} in
  s' <- ctx_sender ;;
  emit (ContentCreated content_id_inner content.(ContentAccess.title)
                       price s') ;;
  share_object (OContent content).

Definition purchase_and_grant_access (content : ContentItem)
    (payment : Coin) (clock : Clock) : Move unit :=
  let price := content.(price) in
  assert (coin_value payment >=? price) EInsufficientPayment ;;
  public_transfer (OCoin payment) content.(creator) ;;
  receipt_id <- object_new ;;
  let receipt_id_inner := receipt_id in
  s <- ctx_sender ;;
  let receipt := {| receipt_id := receipt_id;
                    content_id := id content;
                    content_title := content.(title);
                    price_paid := price;
                    purchaser := s;
                    timestamp := timestamp_ms clock |} in
  s' <- ctx_sender ;;
  emit (ContentPurchased (id content) receipt_id_inner s' price
                         (timestamp_ms clock)) ;;
  s'' <- ctx_sender ;;
  public_transfer (OReceipt receipt) s''.

(** ** View functions *)

Definition get_content_price (content : ContentItem) : u64 := content.(price).
Definition get_content_title (content : ContentItem) : list byte :=
  content.(title).
Definition get_content_url (content : ContentItem) : list byte :=
  content.(content_url).
Definition get_content_creator (content : ContentItem) : address :=
  content.(creator).
Definition get_receipt_content_id (receipt : AccessReceipt) : ID :=
  receipt.(content_id).
Definition get_receipt_timestamp (receipt : AccessReceipt) : u64 :=
  receipt.(timestamp).

(** ** The ledger and the execution of a purchase transaction

    The object store maps an [ID] to the object stored under it and its
    owner.  A transaction that calls [purchase_and_grant_access] names the
    content item, which it borrows, and the payment coin, which it passes
    by value.  The ledger applies what the call did only when the call
    finishes; an abort leaves the store and the event log as they were.
    Gas is outside this model. *)

Record Ledger := mkLedger {
  objects : gmap (N * N) (Owner * Object);
  event_log : list Event
}.

Inductive TxStatus :=
| Success
| MoveAbort (code : u64)
| InvalidInput.

Definition start (c : TxContext) : TxState :=
  {| ctx := c; transfers := []; emitted := [] |}.

Definition store (m : gmap (N * N) (Owner * Object)) (t : Owner * Object)
  : gmap (N * N) (Owner * Object) :=
  <[object_id (snd t) := t]> m.

Definition commit (l : Ledger) (consumed : N * N) (st : TxState) : Ledger :=
  {| objects := foldl store (delete consumed (objects l)) (transfers st);
     event_log := event_log l ++ emitted st |}.

Definition purchase_tx (l : Ledger) (c : TxContext) (content_ref : ID)
    (payment_ref : ID) (clock : Clock) : TxStatus * Ledger :=
  match objects l !! content_ref, objects l !! payment_ref with
  | Some (Shared, OContent content), Some (AddressOwner a, OCoin payment) =>
      if N.eqb a (sender c) then
        match purchase_and_grant_access content payment clock (start c) with
        | Done _ st => (Success, commit l payment_ref st)
        | Abort code => (MoveAbort code, l)
        end
      else (InvalidInput, l)
  | _, _ => (InvalidInput, l)
  end.

(** The SUI an address holds: the sum of the values of its coins. *)
Definition holding (a : address) (t : Owner * Object) : Z :=
  match t with
  | (AddressOwner o, OCoin c) => if N.eqb o a then coin_value c else 0
  | _ => 0
  end.

Definition balance (l : Ledger) (a : address) : Z :=
  map_fold (fun _ t acc => holding a t + acc) 0 (objects l).

(** The receipts an address owns, by receipt id. *)
Definition receipt_of (a : address) (t : Owner * Object)
  : option AccessReceipt :=
  match t with
  | (AddressOwner o, OReceipt r) => if N.eqb o a then Some r else None
  | _ => None
  end.

Definition receipts_of (l : Ledger) (a : address) : gmap (N * N) AccessReceipt :=
  omap (receipt_of a) (objects l).

(** The receipt a purchase by [c] mints. *)
Definition minted_receipt (content : ContentItem) (clock : Clock)
    (c : TxContext) : AccessReceipt :=
  {| receipt_id := (tx_hash c, ids_created c);
     content_id := id content;
     content_title := title content;
     price_paid := price content;
     purchaser := sender c;
     timestamp := timestamp_ms clock |}.

(** What a paid purchase leaves in the store. *)
Definition purchased (l : Ledger) (c : TxContext) (content : ContentItem)
    (payment : Coin) (clock : Clock) : Ledger :=
  {| objects :=
       <[(tx_hash c, ids_created c) :=
           (AddressOwner (sender c),
            OReceipt (minted_receipt content clock c))]>
         (<[coin_id payment :=
              (AddressOwner (creator content), OCoin payment)]>
            (delete (coin_id payment) (objects l)));
     event_log := event_log l ++
       [ContentPurchased (id content) (tx_hash c, ids_created c)
          (sender c) (price content) (timestamp_ms clock)] |}.

End ContentAccess.

(* ===================================================================== *)
(** * Part II: the SDK classes [X402Server] and [X402Client]             *)
(* ===================================================================== *)

Module Sdk.

(** ** JavaScript values

    The values found in the node's JSON answers.  Numbers are integers:
    that is how the node renders the small unsigned types, the larger ones
    come as strings. *)

#[local] Set Warnings "-register-all".

Inductive JsValue :=
| JsUndefined
| JsNull
| JsBoolean (b : bool)
| JsNumber (n : Z)
| JsString (s : string)
| JsArray (items : list JsValue)
| JsObject (props : list (string * JsValue)).

Inductive JsError :=
| Error (message : string)
| TypeError (message : string).

(** [a || b] on an optional string: a missing or empty [a] gives [b]. *)
Definition or_default (a : option string) (b : string) : string :=
  match a with
  | Some (String c s) => String c s
  | _ => b
  end.

Fixpoint lookup_prop (key : string) (props : list (string * JsValue))
  : JsValue :=
  match props with
  | [] => JsUndefined
  | (k, v) :: rest => if String.eqb k key then v else lookup_prop key rest
  end.

(** [String(v)] *)
Fixpoint js_String (v : JsValue) : string :=
  match v with
  | JsUndefined => "undefined"
  | JsNull => "null"
  | JsBoolean true => "true"
  | JsBoolean false => "false"
  | JsNumber n => pretty n
  | JsString s => s
  | JsArray items =>
      String.concat ","
        ((fix each (l : list JsValue) : list string :=
            match l with
            | [] => []
            | JsUndefined :: l' => EmptyString :: each l'
            | JsNull :: l' => EmptyString :: each l'
            | x :: l' => js_String x :: each l'
            end) items)
  | JsObject _ => "[object Object]"
  end.

(** [v === s] for a string [s] *)
Definition strict_equals (v : JsValue) (s : string) : bool :=
  match v with
  | JsString s' => String.eqb s' s
  | _ => false
  end.

(** ** Base64, as [Buffer] writes and reads it *)

Definition base64_alphabet : list ascii :=
  String.list_ascii_of_string
    "ABCDEFGHIJKLMNOPQRSTUVWXYZabcdefghijklmnopqrstuvwxyz0123456789+/".

Definition base64_char (n : N) : ascii :=
  nth (N.to_nat n) base64_alphabet "="%char.

(** [Buffer.from(bytes).toString("base64")] *)
Fixpoint base64_encode (bytes : list byte) : string :=
  match bytes with
  | [] => EmptyString
  | [a] =>
      let x := Byte.to_N a in
      String (base64_char (x / 4))
        (String (base64_char ((x mod 4) * 16)) "==")
  | [a; b] =>
      let x := Byte.to_N a in
      let y := Byte.to_N b in
      String (base64_char (x / 4))
        (String (base64_char ((x mod 4) * 16 + y / 16))
           (String (base64_char ((y mod 16) * 4)) "="))
  | a :: b :: c :: rest =>
      let x := Byte.to_N a in
      let y := Byte.to_N b in
      let z := Byte.to_N c in
      String (base64_char (x / 4))
        (String (base64_char ((x mod 4) * 16 + y / 16))
           (String (base64_char ((y mod 16) * 4 + z / 64))
              (String (base64_char (z mod 64)) (base64_encode rest))))
  end%N.

(** The six bits a character stands for; [-] and [_] are read as [+] and
    [/]. *)
Definition base64_value (c : ascii) : option N :=
  let n := N_of_ascii c in
  if (65 <=? n)%N && (n <=? 90)%N then Some (n - 65)%N
  else if (97 <=? n)%N && (n <=? 122)%N then Some (n - 71)%N
  else if (48 <=? n)%N && (n <=? 57)%N then Some (n + 4)%N
  else if (n =? 43)%N || (n =? 45)%N then Some 62%N
  else if (n =? 47)%N || (n =? 95)%N then Some 63%N
  else None.

(** The sextets of a string: reading stops at the first [=], characters
    outside the alphabet are skipped. *)
Fixpoint base64_sextets (s : string) : list N :=
  match s with
  | EmptyString => []
  | String c s' =>
      if Ascii.eqb c "="%char then []
      else match base64_value c with
           | Some v => v :: base64_sextets s'
           | None => base64_sextets s'
           end
  end.

Definition byte_of_N (n : N) : byte :=
  match Byte.of_N (n mod 256) with
  | Some b => b
  | None => x00
  end.

Fixpoint base64_bytes (sextets : list N) : list byte :=
  match sextets with
  | p :: q :: r :: s :: rest =>
      byte_of_N (p * 4 + q / 16)
        :: byte_of_N ((q mod 16) * 16 + r / 4)
        :: byte_of_N ((r mod 4) * 64 + s)
        :: base64_bytes rest
  | [p; q; r] =>
      [byte_of_N (p * 4 + q / 16); byte_of_N ((q mod 16) * 16 + r / 4)]
  | [p; q] => [byte_of_N (p * 4 + q / 16)]
  | _ => []
  end%N.

(** [Buffer.from(s, "base64")] *)
Definition base64_decode (s : string) : list byte :=
  base64_bytes (base64_sextets s).

(** ** Transactions under construction ([Transaction] of the Sui SDK)

    A transaction block is kept as the commands added to it, in order, with
    the arguments as they were given, and the sender and gas owner set on
    it.  The SDK's own checks of what it is given (it throws for an amount
    that is not a number of 64 bits, and for an id or an address that is
    not hexadecimal) are not part of this: the builders below are read on
    arguments the SDK takes. *)

Inductive Argument :=
| GasCoin
| Object (objectId : string)
| Pure (value : string)
| Result (command : nat)
| NestedResult (command : nat) (index : nat).

Inductive Command :=
| SplitCoins (coin : Argument) (amounts : list Argument)
| MoveCall (target : string) (arguments : list Argument).

Record Transaction := mkTransaction {
  commands : list Command;
  sender : option string;
  gasOwner : option string
}.

(** [new Transaction()] *)
Definition new_Transaction : Transaction :=
  {| commands := []; sender := None; gasOwner := None |}.

Definition add (cmd : Command) (tx : Transaction) : Transaction * nat :=
  ({| commands := commands tx ++ [cmd];
      sender := sender tx;
      gasOwner := gasOwner tx |},
   length (commands tx)).

(** [tx.splitCoins(coin, amounts)]: the result it returns stands for the
    coins split off; [[coin] = ...] takes the first of them. *)
Definition splitCoins (coin : Argument) (amounts : list string)
    (tx : Transaction) : Transaction * nat :=
  add (SplitCoins coin (map Pure amounts)) tx.

(** [tx.moveCall({ target, arguments })] *)
Definition moveCall (target : string) (arguments : list Argument)
    (tx : Transaction) : Transaction * nat :=
  add (MoveCall target arguments) tx.

(** [tx.setSender(address)] *)
Definition setSender (address : string) (tx : Transaction) : Transaction :=
  {| commands := commands tx; sender := Some address;
     gasOwner := gasOwner tx |}.

(** [tx.setGasOwner(address)] *)
Definition setGasOwner (address : string) (tx : Transaction) : Transaction :=
  {| commands := commands tx; sender := sender tx;
     gasOwner := Some address |}.

(** Whose coin [tx.gas] is: gas is paid from a coin of the gas owner, and
    of the sender when the transaction names no gas owner. *)
Definition gasCoinOwner (tx : Transaction) : option string :=
  match gasOwner tx with
  | Some owner => Some owner
  | None => sender tx
  end.

(** ** Shared types (packages/shared/src/types.ts) *)

Record PaymentRequired := mkPaymentRequired {
  amount : string;
  recipient : string;
  transactionBytes : string;
  description : string
}.

Record X402Response := mkX402Response {
  statusCode : Z;
  message : string;
  paymentRequired : PaymentRequired
}.

Record ContentMetadata := mkContentMetadata {
  id : string;
  title : string;
  content_description : string;
  price : string;
  contentUrl : string;
  creator : string
}.

Record AccessReceiptData := mkAccessReceiptData {
  receipt_id : string;
  contentId : string;
  contentTitle : string;
  pricePaid : string;
  purchaser : string;
  timestamp : string
}.

Inductive Status := success | failure.

(** ** What the Sui client answers *)

Record ExecutionStatus := mkExecutionStatus { status : string }.

Record TransactionEffects := mkTransactionEffects {
  effects_status : option ExecutionStatus
}.

Record SuiTransactionBlockResponse := mkSuiTransactionBlockResponse {
  digest : string;
  effects : option TransactionEffects
}.

(** [result.effects?.status?.status] *)
Definition status_of (result : SuiTransactionBlockResponse) : option string :=
  match effects result with
  | Some e =>
      match effects_status e with
      | Some s => Some (status s)
      | None => None
      end
  | None => None
  end.

Inductive SuiParsedData :=
| moveObject (fields : JsValue)
| package.

Record SuiObjectData := mkSuiObjectData {
  objectId : string;
  content : option SuiParsedData
}.

Record SuiObjectResponse := mkSuiObjectResponse {
  data : option SuiObjectData
}.

Record TransactionResult := mkTransactionResult {
  result_digest : string;
  result_status : Status;
  result_effects : option TransactionEffects
}.

(** A call either returns or throws. *)
Inductive Outcome (A : Type) :=
| Returned (a : A)
| Thrown (e : JsError).
Arguments Returned {A} a.
Arguments Thrown {A} e.

(** Sequencing of calls that may throw. *)
Definition and_then {A B} (o : Outcome A) (k : A -> Outcome B) : Outcome B :=
  match o with
  | Returned a => k a
  | Thrown e => Thrown e
  end.

(** The node behind a [SuiClient], by what it answers: the owned objects
    of an address under a type filter, the result of executing signed
    transaction bytes, the record of a digest when asked at a given time,
    with the milliseconds the answer takes, and the bytes
    [tx.build({ client })] serialises a transaction to after resolving its
    inputs through the client. *)
Record SuiClient := mkSuiClient {
  getOwnedObjects : string -> string -> Outcome (list SuiObjectResponse);
  executeTransactionBlock :
    list byte -> list string -> Outcome SuiTransactionBlockResponse;
  getTransactionBlock :
    string -> Z -> N * Outcome SuiTransactionBlockResponse;
  build : Transaction -> Outcome (list byte)
}.

Record Ed25519Keypair := mkEd25519Keypair {
  toSuiAddress : string;
  signTransaction : list byte -> string
}.

(** ** Asynchronous code and what it does to the world

    The world is the wall clock, in milliseconds, and the trace of what the
    SDK has asked of key pairs, of the node and of the console. *)

Inductive Effect :=
| Signed (signer : string) (txBytes : list byte)
| Executed (txBytes : list byte) (signatures : list string)
| QueriedOwnedObjects (owner : string) (structType : string)
| QueriedTransaction (digest : string) (at_ms : Z)
| Built (tx : Transaction)
| Slept (ms : Z)
| ConsoleError (label : string) (e : JsError).

Record World := mkWorld {
  now : Z;
  trace : list Effect
}.

Definition Async (A : Type) := World -> Outcome A * World.

Definition ret {A} (a : A) : Async A := fun w => (Returned a, w).

Definition throw {A} (e : JsError) : Async A := fun w => (Thrown e, w).

Definition bind {A B} (m : Async A) (k : A -> Async B) : Async B :=
  fun w =>
    match m w with
    | (Returned a, w') => k a w'
    | (Thrown e, w') => (Thrown e, w')
    end.

(** [try { m } catch (error) { handler }] *)
Definition try_catch {A} (m : Async A) (handler : JsError -> Async A)
  : Async A :=
  fun w =>
    match m w with
    | (Returned a, w') => (Returned a, w')
    | (Thrown e, w') => handler e w'
    end.

Definition lift {A} (o : Outcome A) : Async A := fun w => (o, w).

Definition log (e : Effect) : Async unit :=
  fun w => (Returned tt, {| now := now w; trace := trace w ++ [e] |}).

Declare Scope js_scope.
Delimit Scope js_scope with js.
Notation "x <- m ;; k" := (bind m (fun x => k))
  (at level 100, m at next level, right associativity) : js_scope.
Notation "m ;; k" := (bind m (fun _ => k))
  (at level 100, right associativity) : js_scope.
Open Scope js_scope.

(** [console.error(label, error)] *)
Definition console_error (label : string) (e : JsError) : Async unit :=
  log (ConsoleError label e).

(** [await keypair.signTransaction(txBytes)] *)
Definition await_signTransaction (keypair : Ed25519Keypair)
    (txBytes : list byte) : Async string :=
  log (Signed (toSuiAddress keypair) txBytes) ;;
  ret (signTransaction keypair txBytes).

(** [await client.executeTransactionBlock(...)] *)
Definition await_executeTransactionBlock (client : SuiClient)
    (txBytes : list byte) (signatures : list string)
  : Async SuiTransactionBlockResponse :=
  log (Executed txBytes signatures) ;;
  lift (executeTransactionBlock client txBytes signatures).

(** [await client.getOwnedObjects(...)] *)
Definition await_getOwnedObjects (client : SuiClient)
    (owner structType : string) : Async (list SuiObjectResponse) :=
  log (QueriedOwnedObjects owner structType) ;;
  lift (getOwnedObjects client owner structType).

(** [await tx.build({ client })] *)
Definition await_build (client : SuiClient) (tx : Transaction)
  : Async (list byte) :=
  log (Built tx) ;;
  lift (build client tx).

(** [fields.key]: reading a property of [undefined] or [null] throws. *)
Definition get (fields : JsValue) (key : string) : Outcome JsValue :=
  match fields with
  | JsUndefined | JsNull =>
      Thrown (TypeError "Cannot read properties of undefined")
  | JsObject props => Returned (lookup_prop key props)
  | _ => Returned JsUndefined
  end.

(** [array.some(f)], for a callback that may throw *)
Fixpoint some {A} (f : A -> Outcome bool) (l : list A) : Outcome bool :=
  match l with
  | [] => Returned false
  | x :: l' =>
      match f x with
      | Returned true => Returned true
      | Returned false => some f l'
      | Thrown e => Thrown e
      end
  end.

(** [array.map(f)], for a callback that may throw *)
Fixpoint map_each {A B} (f : A -> Outcome B) (l : list A)
  : Outcome (list B) :=
  match l with
  | [] => Returned []
  | x :: l' =>
      match f x with
      | Returned y =>
          match map_each f l' with
          | Returned ys => Returned (y :: ys)
          | Thrown e => Thrown e
          end
      | Thrown e => Thrown e
      end
  end.

(** ** [X402Server] (packages/sdk/src/server.ts) *)

Record ServerConfig := mkServerConfig {
  config_suiClient : SuiClient;
  config_packageId : string;
  config_sponsorKeypair : option Ed25519Keypair;
  contentModule : option string
}.

Record PurchaseParams := mkPurchaseParams {
  contentObjectId : string;
  params_price : string;
  params_creator : string;
  buyerAddress : string;
  clockObjectId : option string
}.

Record X402Server := mkX402Server {
  client : SuiClient;
  packageId : string;
  sponsorKeypair : option Ed25519Keypair;
  moduleName : string
}.

(** [constructor(config)], [createX402Server(config)] *)
Definition createX402Server (config : ServerConfig) : X402Server :=
  {| client := config_suiClient config;
     packageId := config_packageId config;
     sponsorKeypair := config_sponsorKeypair config;
     moduleName := or_default (contentModule config) "content_access" |}.

Definition buildPurchaseTransaction (this : X402Server)
    (params : PurchaseParams) : Async Transaction :=
  let tx := new_Transaction in
  let (tx, split) := splitCoins GasCoin [params_price params] tx in
  let coin := NestedResult split 0 in
  let (tx, _) :=
    moveCall
      (packageId this ++ "::" ++ moduleName this
         ++ "::purchase_and_grant_access")
      [Object (contentObjectId params);
       coin;
       Object (or_default (clockObjectId params) "0x6")]
      tx in
  let tx := setSender (buyerAddress params) tx in
  let tx :=
    match sponsorKeypair this with
    | Some keypair => setGasOwner (toSuiAddress keypair) tx
    | None => tx
    end in
  ret tx.

Definition generateX402Response (this : X402Server)
    (content : ContentMetadata) (buyerAddress : string)
  : Async X402Response :=
  tx <- buildPurchaseTransaction this
          {| contentObjectId := id content;
             params_price := price content;
             params_creator := creator content;
             buyerAddress := buyerAddress;
             clockObjectId := None |} ;;
  transactionBytes <- await_build (client this) tx ;;
  let base64Tx := base64_encode transactionBytes in
  ret {| statusCode := 402;
         message := "Payment Required";
         paymentRequired :=
           {| amount := price content;
              recipient := creator content;
              transactionBytes := base64Tx;
              description := "Purchase access to: " ++ title content |} |}.

Definition sponsorAndExecute (this : X402Server)
    (transactionBytes clientSignature clientPublicKey : string)
  : Async TransactionResult :=
  match sponsorKeypair this with
  | None => throw (Error "Sponsor keypair required for transaction execution")
  | Some keypair =>
      try_catch
        (let txBytes := base64_decode transactionBytes in
         sponsorSig <- await_signTransaction keypair txBytes ;;
         result <- await_executeTransactionBlock (client this) txBytes
                     [clientSignature; sponsorSig] ;;
         ret {| result_digest := digest result;
                result_status :=
                  match status_of result with
                  | Some "success" => success
                  | _ => failure
                  end;
                result_effects := effects result |})
        (fun error =>
           console_error "Transaction execution failed:" error ;;
           throw error)
  end.

(** The callback of [objects.data.some(...)] in [hasAccess]. *)
Definition receipt_matches (contentId : string) (obj : SuiObjectResponse)
  : Outcome bool :=
  match data obj with
  | Some d =>
      match content d with
      | Some (moveObject fields) =>
          and_then (get fields "content_id") (fun content_id =>
            Returned (strict_equals content_id contentId))
      | _ => Returned false
      end
  | None => Returned false
  end.

Definition hasAccess (this : X402Server) (ownerAddress contentId : string)
  : Async bool :=
  try_catch
    (objects <- await_getOwnedObjects (client this) ownerAddress
                  (packageId this ++ "::" ++ moduleName this
                     ++ "::AccessReceipt") ;;
     lift (some (receipt_matches contentId) objects))
    (fun error =>
       console_error "Access check failed:" error ;;
       ret false).

(** ** [X402Client] (packages/sdk/src/client.ts) *)

Record ClientConfig := mkClientConfig {
  client_config_suiClient : SuiClient;
  client_config_packageId : string;
  client_config_moduleName : option string
}.

Record X402Client := mkX402Client {
  client_client : SuiClient;
  client_packageId : string;
  client_moduleName : string
}.

(** [constructor(config)], [createX402Client(config)] *)
Definition createX402Client (config : ClientConfig) : X402Client :=
  {| client_client := client_config_suiClient config;
     client_packageId := client_config_packageId config;
     client_moduleName :=
       or_default (client_config_moduleName config) "content_access" |}.

(** [parseX402Response(response)] *)
Definition parseX402Response (response : X402Response)
  : Outcome PaymentRequired :=
  if negb (statusCode response =? 402) then
    Thrown (Error "Invalid x402 response: status code must be 402")
  else
    match transactionBytes (paymentRequired response) with
    | EmptyString =>
        Thrown (Error "Invalid x402 response: missing transaction bytes")
    | _ => Returned (paymentRequired response)
    end.

(** [await client.getTransactionBlock({ digest, ... })]: the answer arrives
    after the time the node takes. *)
Definition await_getTransactionBlock (client : SuiClient) (digest : string)
  : Async SuiTransactionBlockResponse :=
  fun w =>
    let answer := getTransactionBlock client digest (now w) in
    (answer.2,
     {| now := now w + Z.of_N answer.1;
        trace := trace w ++ [QueriedTransaction digest (now w)] |}).

(** [await new Promise((resolve) => setTimeout(resolve, ms))], with a timer
    that fires on time. *)
Definition sleep (ms : Z) : Async unit :=
  fun w =>
    (Returned tt, {| now := now w + ms; trace := trace w ++ [Slept ms] |}).

(** What the body of the loop in [waitForTransaction] decides from an
    answer: to return [true], to return [false], or neither. *)
Definition verdict (result : SuiTransactionBlockResponse) : option bool :=
  match status_of result with
  | Some s =>
      if String.eqb s "success" then Some true
      else if String.eqb s "failure" then Some false
      else None
  | None => None
  end.

(** One turn of the loop: the [try] block, then the pause when it has not
    returned. *)
Definition poll_once (client : SuiClient) (digest : string)
  : Async (option bool) :=
  decided <- try_catch
               (result <- await_getTransactionBlock client digest ;;
                ret (verdict result))
               (fun error => ret None) ;;
  match decided with
  | Some b => ret (Some b)
  | None => sleep 1000 ;; ret None
  end.

Lemma poll_once_pauses client digest w w' :
  poll_once client digest w = (Returned None, w') ->
  now w + 1000 <= now w'.
Proof.
  unfold poll_once, bind, try_catch, await_getTransactionBlock, sleep, ret.
  destruct (getTransactionBlock client digest (now w)) as [latency answer].
  cbn. destruct answer as [result|e]; cbn.
  - destruct (verdict result); cbn; intros H; inversion H; subst; cbn; lia.
  - intros H; inversion H; subst; cbn; lia.
Qed.

Definition inspect {A} (a : A) : {b : A | a = b} := exist _ a eq_refl.

(** [while (Date.now() - startTime < timeoutMs) { ... }] followed by the
    [throw]. *)
Equations? poll (client : SuiClient) (digest : string)
    (startTime timeoutMs : Z) (w : World) : Outcome bool * World
  by wf (Z.to_nat (timeoutMs - (now w - startTime))) lt :=
  poll client digest startTime timeoutMs w
    with Z_lt_dec (now w - startTime) timeoutMs := {
    | right _ => throw (Error "Transaction confirmation timeout") w
    | left _ with inspect (poll_once client digest w) := {
      | exist _ (Returned (Some b), w') _ => (Returned b, w')
      | exist _ (Returned None, w') E =>
          poll client digest startTime timeoutMs w'
      | exist _ (Thrown e, w') _ => (Thrown e, w')
      }
    }.
Proof.
  apply poll_once_pauses in E. lia.
Qed.

Definition waitForTransaction (this : X402Client) (digest : string)
    (timeoutMs : option Z) : Async bool :=
  fun w =>
    let timeoutMs := match timeoutMs with Some t => t | None => 30000 end in
    let startTime := now w in
    poll (client_client this) digest startTime timeoutMs w.

Section Client.

(** [Buffer.from(vec).toString("utf8")], which Node supplies. *)
Variable utf8 : list JsValue -> string.

(** [decodeString(vec)] *)
Definition decodeString (vec : JsValue) : string :=
  match vec with
  | JsArray items => utf8 items
  | _ => js_String vec
  end.

(** The predicate of [objects.data.filter(...)] in [getAccessReceipts]. *)
Definition has_move_content (obj : SuiObjectResponse) : bool :=
  match data obj with
  | Some d =>
      match content d with
      | Some (moveObject _) => true
      | _ => false
      end
  | None => false
  end.

(** The callback of [.map(...)] in [getAccessReceipts]; it runs on objects
    that passed the filter. *)
Definition to_receipt (obj : SuiObjectResponse) : Outcome AccessReceiptData :=
  match data obj with
  | Some d =>
      match content d with
      | Some (moveObject fields) =>
          and_then (get fields "content_id") (fun content_id =>
          and_then (get fields "content_title") (fun content_title =>
          and_then (get fields "price_paid") (fun price_paid =>
          and_then (get fields "purchaser") (fun purchaser =>
          and_then (get fields "timestamp") (fun timestamp =>
            Returned {| receipt_id := objectId d;
                        contentId := js_String content_id;
                        contentTitle := decodeString content_title;
                        pricePaid := js_String price_paid;
                        purchaser := js_String purchaser;
                        timestamp := js_String timestamp |})))))
      | _ => Thrown (TypeError "Cannot read properties of undefined")
      end
  | None => Thrown (TypeError "Cannot read properties of undefined")
  end.

Definition getAccessReceipts (this : X402Client) (userAddress : string)
  : Async (list AccessReceiptData) :=
  try_catch
    (objects <- await_getOwnedObjects (client_client this) userAddress
                  (client_packageId this ++ "::" ++ client_moduleName this
                     ++ "::AccessReceipt") ;;
     lift (map_each to_receipt (List.filter has_move_content objects)))
    (fun error =>
       console_error "Failed to fetch access receipts:" error ;;
       ret []).

Definition checkAccess (this : X402Client) (userAddress contentId : string)
  : Async bool :=
  try_catch
    (receipts <- getAccessReceipts this userAddress ;;
     ret (existsb (fun receipt => String.eqb (Sdk.contentId receipt) contentId)
            receipts))
    (fun error =>
       console_error "Access check failed:" error ;;
       ret false).

End Client.

(** ** Notions the properties are stated with *)

(** An owned object that is a receipt for [contentId]: it has Move content
    whose [content_id] field is the string [contentId]. *)
Definition owns_receipt_for (contentId : string) (obj : SuiObjectResponse)
  : bool :=
  match data obj with
  | Some d =>
      match content d with
      | Some (moveObject (JsObject props)) =>
          strict_equals (lookup_prop "content_id" props) contentId
      | _ => false
      end
  | None => false
  end.

(** An owned object as the node renders an [AccessReceipt]: when it carries
    Move content, that content is a record of fields whose [content_id] is a
    string, the rendering of a Move [ID]. *)
Definition receipt_shaped (obj : SuiObjectResponse) : bool :=
  match data obj with
  | Some d =>
      match content d with
      | Some (moveObject (JsObject props)) =>
          match lookup_prop "content_id" props with
          | JsString _ => true
          | _ => false
          end
      | Some (moveObject _) => false
      | _ => true
      end
  | None => true
  end.

(** What a request for the digest sent at time [t] lets the loop decide. *)
Definition answer_verdict (client : SuiClient) (digest : string) (t : Z)
  : option bool :=
  match (getTransactionBlock client digest t).2 with
  | Returned result => verdict result
  | Thrown _ => None
  end.

(** The requests for a digest in a trace, by the time they were sent. *)
Fixpoint polls (effects : list Effect) : list Z :=
  match effects with
  | [] => []
  | QueriedTransaction _ t :: rest => t :: polls rest
  | _ :: rest => polls rest
  end.

(** The requests sent after a given time. *)
Definition polls_after (t : Z) (effects : list Effect) : list Z :=
  List.filter (fun at_ms => t <? at_ms) (polls effects).

(** The trace of a polling loop with a pause of one second: requests for
    the digest, each but possibly the last followed by a pause of 1000 ms. *)
Inductive polling (digest : string) : list Effect -> Prop :=
| polling_over : polling digest []
| polling_answered t : polling digest [QueriedTransaction digest t]
| polling_paused t rest :
    polling digest rest ->
    polling digest (QueriedTransaction digest t :: Slept 1000 :: rest).

End Sdk.


(* ===================================================================== *)
(** * Part III: histories of the ledger                                  *)
(* ===================================================================== *)

Module History.

Import ContentAccess.

(** The ledger after a call that consumed no input. *)
Definition publish (l : Ledger) (st : TxState) : Ledger :=
  {| objects := foldl store (objects l) (transfers st);
     event_log := event_log l ++ emitted st |}.

(** The transactions that call into the module. *)
Inductive Tx :=
| Init (c : TxContext)
| CreateContent (c : TxContext) (title description : list byte)
                (price : Z) (content_url : list byte)
| Purchase (c : TxContext) (content_ref payment_ref : N * N) (clock : Clock).

Definition tx_context (tx : Tx) : TxContext :=
  match tx with
  | Init c => c
  | CreateContent c _ _ _ _ => c
  | Purchase c _ _ _ => c
  end.

Definition call_tx (l : Ledger) (c : TxContext) (call : Move unit)
  : TxStatus * Ledger :=
  match call (start c) with
  | Done _ st => (Success, publish l st)
  | Abort code => (MoveAbort code, l)
  end.

Definition apply (l : Ledger) (tx : Tx) : TxStatus * Ledger :=
  match tx with
  | Init c => call_tx l c init
  | CreateContent c title description price content_url =>
      call_tx l c (create_content title description price content_url)
  | Purchase c content_ref payment_ref clock =>
      purchase_tx l c content_ref payment_ref clock
  end.

Fixpoint run (l : Ledger) (txs : list Tx) : Ledger :=
  match txs with
  | [] => l
  | tx :: rest => run (apply l tx).2 rest
  end.

(** The id the next object of a transaction gets is not in use: what the
    framework guarantees for the ids it derives. *)
Definition fresh (l : Ledger) (c : TxContext) : Prop :=
  objects l !! (tx_hash c, ids_created c) = None.

Fixpoint fresh_run (l : Ledger) (txs : list Tx) : Prop :=
  match txs with
  | [] => True
  | tx :: rest => fresh l (tx_context tx) /\ fresh_run (apply l tx).2 rest
  end.

(** Every object is stored under its own id. *)
Definition keyed (l : Ledger) : Prop :=
  forall k t, objects l !! k = Some t -> object_id t.2 = k.

(** Every receipt in the store names a content item that is in the store,
    shared, and records that item's title and price. *)
Definition attested (l : Ledger) : Prop :=
  forall k o r,
    objects l !! k = Some (o, OReceipt r) ->
    exists item,
      objects l !! content_id r = Some (Shared, OContent item) /\
      content_title r = title item /\
      price_paid r = price item.

(** What an event says is in the store: a purchase event names a receipt
    owned by the purchaser with the same content id, price and time; a
    creation event names a shared item with the same title, price and
    creator. *)
Definition event_backed (l : Ledger) (ev : Event) : Prop :=
  match ev with
  | ContentPurchased cid rid who paid ts =>
      exists r,
        objects l !! rid = Some (AddressOwner who, OReceipt r) /\
        content_id r = cid /\ purchaser r = who /\
        price_paid r = paid /\ timestamp r = ts
  | ContentCreated cid title' price' creator' =>
      exists item,
        objects l !! cid = Some (Shared, OContent item) /\
        title item = title' /\ price item = price' /\
        creator item = creator'
  end.

Definition recorded (l : Ledger) : Prop :=
  Forall (event_backed l) (event_log l).

Definition consistent (l : Ledger) : Prop :=
  keyed l /\ attested l /\ recorded l.

(** All the SUI in the store. *)
Definition coin_amount (t : Owner * Object) : Z :=
  match t.2 with
  | OCoin c => coin_value c
  | _ => 0
  end.

Definition total_supply (l : Ledger) : Z :=
  map_fold (fun _ t acc => coin_amount t + acc) 0 (objects l).

End History.

(* ===================================================================== *)
(** * Part IV: the rest of the SDK classes                               *)
(* ===================================================================== *)

Module Flows.

Import Sdk.

(** ** More shared types (packages/shared/src/types.ts) *)

Record SignedTransactionRequest := mkSignedTransactionRequest {
  signed_transactionBytes : string;
  signature : string;
  publicKey : string
}.

(** ** [WalletSigner] (packages/sdk/src/client.ts)

    A wallet may decline: its [signTransaction] returns the signature and
    the public key, or throws. *)
Record WalletSigner := mkWalletSigner {
  address : string;
  wallet_signTransaction : list byte -> Outcome (string * string)
}.

(** ** HTTP, as [fetch] gives it

    A response has its status, its status text and the body that
    [response.json()] parses, if it parses.  The body of a content request
    is read as an [X402Response]; the body of an execute request is read
    for [message], [digest] and [status]. *)
Record Response (A : Type) := mkResponse {
  response_status : Z;
  statusText : string;
  json : Outcome A
}.
Arguments response_status {A} _.
Arguments statusText {A} _.
Arguments json {A} _.

(** [response.ok] *)
Definition ok {A} (response : Response A) : bool :=
  (200 <=? response_status response) && (response_status response <=? 299).

Record ExecuteBody := mkExecuteBody {
  body_message : option string;
  body_digest : string;
  body_status : string
}.

(** The server behind [fetch], by what it answers to a GET of a URL and to
    a POST of a signed transaction to a URL; a request can also fail
    without an answer. *)
Record Fetch := mkFetch {
  fetch_get : string -> Outcome (Response X402Response);
  fetch_post :
    string -> SignedTransactionRequest -> Outcome (Response ExecuteBody)
}.

(** ** What a transaction created, as the node reports it *)

Inductive Owner :=
| AddressOwner (a : string)
| ObjectOwner (a : string)
| Shared (initial_shared_version : Z)
| Immutable.

Record OwnedObjectRef := mkOwnedObjectRef {
  owner : Owner;
  reference_objectId : string
}.

(** [obj.owner && typeof obj.owner === "object" && "Shared" in obj.owner] *)
Definition is_shared (obj : OwnedObjectRef) : bool :=
  match owner obj with
  | Shared _ => true
  | _ => false
  end.

(** What [getContentDetails] returns: the decoded texts, and the price and
    the creator as the node gave them. *)
Record ContentDetails := mkContentDetails {
  details_id : string;
  details_title : string;
  details_description : string;
  details_price : JsValue;
  details_contentUrl : string;
  details_creator : JsValue
}.

Section Methods.

(** What the SDK's key pair, Node and the Sui client supply:
    [keypair.getPublicKey().toBase64()],
    [Buffer.from(vec).toString("utf8")],
    [tx.pure.u64(value)], which gives the argument that carries the number
    and throws for a text that is not a number of 64 bits,
    the created objects in the answer to
    [client.signAndExecuteTransaction({ transaction, signer, ... })], that
    is [result.effects?.created], and the answer to
    [client.getObject({ id, ... })]. *)
Variable publicKey_toBase64 : Ed25519Keypair -> string.
Variable utf8 : list JsValue -> string.
Variable pure_u64 : string -> Outcome Argument.
Variable signAndExecuteTransaction :
  SuiClient -> Transaction -> Ed25519Keypair ->
  Outcome (option (list OwnedObjectRef)).
Variable getObject : SuiClient -> string -> Outcome SuiObjectResponse.

(** The global [fetch]. *)
Variable fetch : Fetch.

(** *** [X402Client] *)

Definition signWithKeypair (transactionBytes : string)
    (keypair : Ed25519Keypair) : Async SignedTransactionRequest :=
  let txBytes := base64_decode transactionBytes in
  signature <- await_signTransaction keypair txBytes ;;
  ret {| signed_transactionBytes := transactionBytes;
         signature := signature;
         publicKey := publicKey_toBase64 keypair |}.

Definition signWithWallet (transactionBytes : string)
    (wallet : WalletSigner) : Async SignedTransactionRequest :=
  let txBytes := base64_decode transactionBytes in
  signed <- (log (Signed (address wallet) txBytes) ;;
             lift (wallet_signTransaction wallet txBytes)) ;;
  ret {| signed_transactionBytes := transactionBytes;
         signature := signed.1;
         publicKey := signed.2 |}.

Definition submitSignedTransaction (serverUrl contentId : string)
    (signedTx : SignedTransactionRequest) : Async ExecuteBody :=
  response <- lift (fetch_post fetch
                      (serverUrl ++ "/content/" ++ contentId ++ "/execute")
                      signedTx) ;;
  if negb (ok response) then
    error <- lift (json response) ;;
    throw (Error (or_default (body_message error)
                    "Failed to execute transaction"))
  else lift (json response).

Definition requestContent (serverUrl contentId : string)
  : Async X402Response :=
  response <- lift (fetch_get fetch (serverUrl ++ "/content/" ++ contentId)) ;;
  if response_status response =? 402 then lift (json response)
  else if negb (ok response) then
    throw (Error ("Failed to request content: " ++ statusText response))
  else throw (Error "User already has access to this content").

Definition handleX402Flow (serverUrl contentId : string)
    (keypair : Ed25519Keypair) : Async string :=
  x402Response <- requestContent serverUrl contentId ;;
  payment <- lift (parseX402Response x402Response) ;;
  signedTx <- signWithKeypair (transactionBytes payment) keypair ;;
  result <- submitSignedTransaction serverUrl contentId signedTx ;;
  ret (body_digest result).

(** *** [X402Server] *)

(** The arguments of the call are evaluated before [tx.moveCall] is
    reached: the three texts always give an argument, the price only when
    [tx.pure.u64] takes it. *)
Definition createContent (this : X402Server)
    (title description price contentUrl : string)
    (creatorKeypair : Ed25519Keypair) : Async string :=
  let tx := new_Transaction in
  priceArgument <- lift (pure_u64 price) ;;
  let (tx, _) :=
    moveCall
      (packageId this ++ "::" ++ moduleName this ++ "::create_content")
      [Pure title; Pure description; priceArgument; Pure contentUrl]
      tx in
  let tx := setSender (toSuiAddress creatorKeypair) tx in
  created <- lift (signAndExecuteTransaction (client this) tx
                     creatorKeypair) ;;
  let createdObjects :=
    match created with
    | Some objects => objects
    | None => []
    end in
  match List.find is_shared createdObjects with
  | None => throw (Error "Failed to create content object")
  | Some contentObject => ret (reference_objectId contentObject)
  end.

Definition getContentDetails (this : X402Server) (contentObjectId : string)
  : Async (option ContentDetails) :=
  try_catch
    (obj <- lift (getObject (client this) contentObjectId) ;;
     match data obj with
     | Some d =>
         match content d with
         | Some (moveObject fields) =>
             lift
               (and_then (get fields "title") (fun title =>
                and_then (get fields "description") (fun description =>
                and_then (get fields "price") (fun price =>
                and_then (get fields "content_url") (fun content_url =>
                and_then (get fields "creator") (fun creator =>
                  Returned
                    (Some {| details_id := contentObjectId;
                             details_title := decodeString utf8 title;
                             details_description :=
                               decodeString utf8 description;
                             details_price := price;
                             details_contentUrl :=
                               decodeString utf8 content_url;
                             details_creator := creator |})))))))
         | _ => ret None
         end
     | None => ret None
     end)
    (fun error =>
       console_error "Failed to fetch content:" error ;;
       ret None).

End Methods.

(** ** Notions the properties are stated with *)

(** The object id and the content id of every owned object that carries
    Move content with a string [content_id], in the node's order. *)
Fixpoint receipt_keys (objects : list SuiObjectResponse)
  : list (string * string) :=
  match objects with
  | [] => []
  | obj :: rest =>
      match data obj with
      | Some d =>
          match content d with
          | Some (moveObject (JsObject props)) =>
              match lookup_prop "content_id" props with
              | JsString s => (objectId d, s) :: receipt_keys rest
              | _ => receipt_keys rest
              end
          | _ => receipt_keys rest
          end
      | None => receipt_keys rest
      end
  end.

(** The signing requests in a trace. *)
Fixpoint signings (effects : list Effect) : list (string * list byte) :=
  match effects with
  | [] => []
  | Signed signer txBytes :: rest => (signer, txBytes) :: signings rest
  | _ :: rest => signings rest
  end.

End Flows.

(* ===================================================================== *)
(** * The wait for a transaction, with timers as the host runs them      *)
(* ===================================================================== *)

(** [setTimeout(resolve, ms)] calls back no sooner than [ms] milliseconds
    on; how much later is up to the host.  Here the pause of
    [waitForTransaction] (packages/sdk/src/client.ts) is taken with that
    lateness: [late t] is by how much a timer that is set at time [t] fires
    late.  As in [Sdk], time passes only while the node is answering and
    while a timer runs. *)

Module Timers.

Import Sdk.

(** [await new Promise((resolve) => setTimeout(resolve, ms))] *)
Definition sleep_late (late : Z -> N) (ms : Z) : Async unit :=
  fun w =>
    (Returned tt,
     {| now := now w + ms + Z.of_N (late (now w));
        trace := trace w ++ [Slept ms] |}).

(** One turn of the loop: the [try] block, then the pause when it has not
    returned. *)
Definition poll_once_late (late : Z -> N) (client : SuiClient)
    (digest : string) : Async (option bool) :=
  decided <- try_catch
               (result <- await_getTransactionBlock client digest ;;
                ret (verdict result))
               (fun error => ret None) ;;
  match decided with
  | Some b => ret (Some b)
  | None => sleep_late late 1000 ;; ret None
  end.

Lemma poll_once_late_pauses late client digest w w' :
  poll_once_late late client digest w = (Returned None, w') ->
  now w + 1000 <= now w'.
Proof.
  unfold poll_once_late, bind, try_catch, await_getTransactionBlock,
    sleep_late, ret.
  destruct (getTransactionBlock client digest (now w)) as [latency answer].
  cbn. destruct answer as [result|e]; cbn.
  - destruct (verdict result); cbn; intros H; inversion H; subst; cbn; lia.
  - intros H; inversion H; subst; cbn; lia.
Qed.

(** [while (Date.now() - startTime < timeoutMs) { ... }] followed by the
    [throw]. *)
Equations? poll_late (late : Z -> N) (client : SuiClient) (digest : string)
    (startTime timeoutMs : Z) (w : World) : Outcome bool * World
  by wf (Z.to_nat (timeoutMs - (now w - startTime))) lt :=
  poll_late late client digest startTime timeoutMs w
    with Z_lt_dec (now w - startTime) timeoutMs := {
    | right _ => throw (Error "Transaction confirmation timeout") w
    | left _ with inspect (poll_once_late late client digest w) := {
      | exist _ (Returned (Some b), w') _ => (Returned b, w')
      | exist _ (Returned None, w') E =>
          poll_late late client digest startTime timeoutMs w'
      | exist _ (Thrown e, w') _ => (Thrown e, w')
      }
    }.
Proof.
  apply poll_once_late_pauses in E. lia.
Qed.

Definition waitForTransaction_late (late : Z -> N) (this : X402Client)
    (digest : string) (timeoutMs : option Z) : Async bool :=
  fun w =>
    let timeoutMs := match timeoutMs with Some t => t | None => 30000 end in
    let startTime := now w in
    poll_late late (client_client this) digest startTime timeoutMs w.

End Timers.

(* ===================================================================== *)
(** * Sample data                                                        *)
(* ===================================================================== *)

Module LedgerSamples.

Import ContentAccess.

(** A sample ledger

    An item priced at 1_000_000_000 by creator 12, and a buyer 11 who
    holds one coin of exactly the price, one of half the price and one of
    twice the price. *)

Definition article : ContentItem :=
  {| id := (1%N, 0%N);
     title := [x50; x72; x65; x6d; x69; x75; x6d];
     description := [x41; x72; x74; x69; x63; x6c; x65];
     price := 1000000000;
     content_url := [x68; x74; x74; x70; x73];
     creator := 12%N |}.

Definition coin_exact : Coin := {| coin_id := (2%N, 0%N); coin_value := 1000000000 |}.
Definition coin_half : Coin := {| coin_id := (2%N, 1%N); coin_value := 500000000 |}.
Definition coin_double : Coin := {| coin_id := (2%N, 2%N); coin_value := 2000000000 |}.

Definition genesis : Ledger :=
  {| objects :=
       <[(1%N, 0%N) := (Shared, OContent article)]>
       (<[(2%N, 0%N) := (AddressOwner 11%N, OCoin coin_exact)]>
       (<[(2%N, 1%N) := (AddressOwner 11%N, OCoin coin_half)]>
       (<[(2%N, 2%N) := (AddressOwner 11%N, OCoin coin_double)]> ∅)));
     event_log := [] |}.

Definition buyer_ctx : TxContext :=
  {| sender := 11%N; tx_hash := 7%N; ids_created := 0%N |}.

Definition noon : Clock := {| timestamp_ms := 1700000000000 |}.

End LedgerSamples.

Module SdkSamples.

Import Sdk.

(** A stand-in for the SDK's serialiser: the bytes of a line of text that
    spells out the commands, the sender and the gas owner. *)
Definition show_argument (a : Argument) : string :=
  match a with
  | GasCoin => "gas"
  | Object objectId => "object " ++ objectId
  | Pure value => "pure " ++ value
  | Result command => "result " ++ pretty command
  | NestedResult command index =>
      "result " ++ pretty command ++ "." ++ pretty index
  end.

Definition show_command (c : Command) : string :=
  match c with
  | SplitCoins coin amounts =>
      "split " ++ show_argument coin ++ " ["
        ++ String.concat ", " (map show_argument amounts) ++ "]"
  | MoveCall target arguments =>
      "call " ++ target ++ " ["
        ++ String.concat ", " (map show_argument arguments) ++ "]"
  end.

Definition show_transaction (tx : Transaction) : string :=
  String.concat "; " (map show_command (commands tx))
    ++ "; sender " ++ default "-" (sender tx)
    ++ "; gas owner " ++ default "-" (gasOwner tx).

Definition serialize (tx : Transaction) : list byte :=
  String.list_byte_of_string (show_transaction tx).

(** A receipt object as the node returns it. *)
Definition receipt_object (objectId contentId : string) : SuiObjectResponse :=
  {| data := Some
       {| objectId := objectId;
          content := Some (moveObject (JsObject
            [("id", JsObject [("id", JsString objectId)]);
             ("content_id", JsString contentId);
             ("content_title", JsArray [JsNumber 72; JsNumber 105]);
             ("price_paid", JsString "1000000000");
             ("purchaser", JsString "0xb0b");
             ("timestamp", JsString "1700000000000")])) |} |}.

Definition succeeded (d : string) : SuiTransactionBlockResponse :=
  {| digest := d;
     effects := Some {| effects_status := Some {| status := "success" |} |} |}.

Definition failed (d : string) : SuiTransactionBlockResponse :=
  {| digest := d;
     effects := Some {| effects_status := Some {| status := "failure" |} |} |}.

(** A node on which [0xb0b] owns a receipt for [0xa], queries about
    [0xdead] fail, digest [D1] settles as a success 2500 ms in, digest [D2]
    as a failure at once, and every other digest stays unknown. *)
Definition node : SuiClient :=
  {| getOwnedObjects := fun owner structType =>
       if String.eqb owner "0xb0b" then
         Returned [receipt_object "0x71" "0xa"]
       else if String.eqb owner "0xdead" then Thrown (Error "fetch failed")
       else Returned [];
     executeTransactionBlock := fun txBytes signatures =>
       Returned (succeeded "D1");
     getTransactionBlock := fun d t =>
       if String.eqb d "D1" then
         (200%N, if t <? 2500 then Thrown (Error "not found")
                 else Returned (succeeded d))
       else if String.eqb d "D2" then (200%N, Returned (failed d))
       else (0%N, Thrown (Error "not found"));
     build := fun tx => Returned (serialize tx) |}.

Definition sponsor : Ed25519Keypair :=
  {| toSuiAddress := "0x5";
     signTransaction := fun txBytes =>
       ("sponsor:" ++ base64_encode txBytes)%string |}.

Definition sponsored_server : X402Server :=
  createX402Server
    {| config_suiClient := node; config_packageId := "0x402";
       config_sponsorKeypair := Some sponsor; contentModule := None |}.

Definition plain_server : X402Server :=
  createX402Server
    {| config_suiClient := node; config_packageId := "0x402";
       config_sponsorKeypair := None; contentModule := None |}.

Definition reader : X402Client :=
  createX402Client
    {| client_config_suiClient := node; client_config_packageId := "0x402";
       client_config_moduleName := None |}.

Definition item_a : ContentMetadata :=
  {| id := "0xa"; title := "Premium Article";
     content_description := "An exclusive article";
     price := "1000000000"; contentUrl := "https://content.example.com/a";
     creator := "0xc" |}.

Definition item_b : ContentMetadata :=
  {| id := "0xb"; title := "Teaser";
     content_description := "A short note";
     price := "5"; contentUrl := "https://content.example.com/b";
     creator := "0xc" |}.

Definition dawn : World := {| now := 0; trace := [] |}.

(** Whether a command names the object [objectId]. *)
Definition names_object (objectId : string) (c : Command) : bool :=
  match c with
  | SplitCoins coin amounts => false
  | MoveCall target arguments =>
      existsb (fun a => match a with
                        | Object o => String.eqb o objectId
                        | _ => false
                        end) arguments
  end.

(** A node like [node] on which the object [0xdead] does not exist: a
    transaction that names it cannot be resolved, and [tx.build] rejects
    with the node's complaint. *)
Definition pruned_node : SuiClient :=
  {| getOwnedObjects := getOwnedObjects node;
     executeTransactionBlock := executeTransactionBlock node;
     getTransactionBlock := getTransactionBlock node;
     build := fun tx =>
       if existsb (names_object "0xdead") (commands tx) then
         Thrown (Error "Object 0xdead does not exist")
       else Returned (serialize tx) |}.

Definition pruned_server : X402Server :=
  createX402Server
    {| config_suiClient := pruned_node; config_packageId := "0x402";
       config_sponsorKeypair := None; contentModule := None |}.

(** An item of the catalogue whose object is not on the node. *)
Definition item_gone : ContentMetadata :=
  {| id := "0xdead"; title := "Withdrawn";
     content_description := "No longer on chain";
     price := "1000000000"; contentUrl := "https://content.example.com/gone";
     creator := "0xc" |}.

Definition latin1 (items : list JsValue) : string :=
  String.string_of_list_ascii
    (map (fun v => match v with
                   | JsNumber n => ascii_of_N (Z.to_N n)
                   | _ => "?"%char
                   end) items).

End SdkSamples.


Module HistorySamples.

Import ContentAccess History LedgerSamples.

Definition publisher_ctx : TxContext :=
  {| sender := 12%N; tx_hash := 5%N; ids_created := 0%N |}.

Definition second_buyer_ctx : TxContext :=
  {| sender := 11%N; tx_hash := 8%N; ids_created := 0%N |}.

(** Bare coins: the buyer's three coins and nothing else. *)
Definition purse : Ledger :=
  {| objects :=
       <[(2%N, 0%N) := (AddressOwner 11%N, OCoin coin_exact)]>
       (<[(2%N, 1%N) := (AddressOwner 11%N, OCoin coin_half)]>
       (<[(2%N, 2%N) := (AddressOwner 11%N, OCoin coin_double)]> ∅));
     event_log := [] |}.

(** The module is published, an item is created, the buyer tries with too
    small a coin, then buys it, and buys it again. *)
Definition story : list Tx :=
  [Init {| sender := 12%N; tx_hash := 4%N; ids_created := 0%N |};
   CreateContent publisher_ctx (title article) (description article)
     (price article) (content_url article);
   Purchase buyer_ctx (5%N, 0%N) (2%N, 1%N) noon;
   Purchase buyer_ctx (5%N, 0%N) (2%N, 0%N) noon;
   Purchase second_buyer_ctx (5%N, 0%N) (2%N, 2%N) noon].

End HistorySamples.

Module FlowSamples.

Import Sdk Flows SdkSamples.

Definition buyer : Ed25519Keypair :=
  {| toSuiAddress := "0xb0b";
     signTransaction := fun txBytes =>
       ("buyer:" ++ base64_encode txBytes)%string |}.

Definition buyer_wallet : WalletSigner :=
  {| address := "0xb0b";
     wallet_signTransaction := fun txBytes =>
       Returned (("buyer:" ++ base64_encode txBytes)%string, "buyer-key") |}.

Definition buyer_key (keypair : Ed25519Keypair) : string :=
  ("key of " ++ toSuiAddress keypair)%string.

(** A shop that asks payment for [0xa], serves [0xfree] to anyone, knows
    no other content, and reports digest [D1] for whatever is posted. *)
Definition shop : Fetch :=
  {| fetch_get := fun url =>
       if String.eqb url "https://shop/content/0xa" then
         Returned {| response_status := 402;
                     statusText := "Payment Required";
                     json := (generateX402Response sponsored_server item_a
                                "0xb0b" dawn).1 |}
       else if String.eqb url "https://shop/content/0xfree" then
         Returned {| response_status := 200; statusText := "OK";
                     json := Thrown (Error "Unexpected token") |}
       else
         Returned {| response_status := 404; statusText := "Not Found";
                     json := Thrown (Error "Unexpected token") |};
     fetch_post := fun url signedTx =>
       Returned {| response_status := 200; statusText := "OK";
                   json := Returned {| body_message := None;
                                       body_digest := "D1";
                                       body_status := "success" |} |} |}.

(** The envelope the sponsored server builds for [0xb0b] and item [0xa]. *)
Definition envelope_a : Transaction :=
  {| commands :=
       [SplitCoins GasCoin [Pure "1000000000"];
        MoveCall "0x402::content_access::purchase_and_grant_access"
          [Object "0xa"; NestedResult 0 0; Object "0x6"]];
     sender := Some "0xb0b";
     gasOwner := Some "0x5" |}.

(** A node that executes a creation: the transaction changed a coin of
    the creator and created the shared item [0xa]. *)
Definition creation_answer (client : SuiClient) (tx : Transaction)
    (signer : Ed25519Keypair) : Outcome (option (list OwnedObjectRef)) :=
  Returned (Some [{| owner := AddressOwner (toSuiAddress signer);
                     reference_objectId := "0x9" |};
                  {| owner := Shared 7; reference_objectId := "0xa" |}]).

(** A stand-in for [tx.pure.u64]: it takes a text of decimal digits that
    spells a number below 2^64, and throws for any other. *)
Fixpoint decimal (digits : list ascii) (acc : N) : option N :=
  match digits with
  | [] => Some acc
  | c :: rest =>
      let n := N_of_ascii c in
      if ((48 <=? n) && (n <=? 57))%N then
        decimal rest (10 * acc + (n - 48))%N
      else None
  end.

Definition decimal_u64 (value : string) : Outcome Argument :=
  match String.list_ascii_of_string value with
  | [] => Thrown (Error "Invalid u64")
  | digits =>
      match decimal digits 0%N with
      | Some n =>
          if (n <? 2 ^ 64)%N then Returned (Pure value)
          else Thrown (Error "Invalid u64")
      | None => Thrown (Error "Invalid u64")
      end
  end.

(** A node that knows the item [0xa] and nothing else. *)
Definition object_answer (client : SuiClient) (objectId : string)
  : Outcome SuiObjectResponse :=
  if String.eqb objectId "0xa" then
    Returned
      {| data := Some
           {| objectId := "0xa";
              content := Some (moveObject (JsObject
                [("id", JsObject [("id", JsString "0xa")]);
                 ("title", JsArray [JsNumber 72; JsNumber 105]);
                 ("description", JsArray [JsNumber 72; JsNumber 111]);
                 ("price", JsString "1000000000");
                 ("content_url", JsArray [JsNumber 47]);
                 ("creator", JsString "0xc")])) |} |}
  else Thrown (Error "object not found").

(** Item [0xa] as another catalogue describes it: the same id and price,
    another title and another creator. *)
Definition item_a_relabelled : ContentMetadata :=
  {| id := "0xa"; title := "Something else";
     content_description := "Described otherwise";
     price := "1000000000"; contentUrl := "https://elsewhere.example.com";
     creator := "0xe" |}.

End FlowSamples.

(* ===================================================================== *)
(** * Properties of the Move module                                      *)
(* ===================================================================== *)

Section ContentAccessFacts.
Import ContentAccess LedgerSamples.

(** ** The call itself *)

Lemma purchase_underpaid content payment clock st :
  coin_value payment < price content ->
  purchase_and_grant_access content payment clock st
  = Abort EInsufficientPayment.
Proof.
  intros Hlt. unfold purchase_and_grant_access, bind, assert.
  destruct (coin_value payment >=? price content) eqn:E; [|reflexivity].
  apply Z.geb_le in E. lia.
Qed.

Lemma purchase_paid content payment clock st :
  price content <= coin_value payment ->
  purchase_and_grant_access content payment clock st
  = Done tt
      {| ctx := {| sender := sender (ctx st); tx_hash := tx_hash (ctx st);
                   ids_created := N.succ (ids_created (ctx st)) |};
         transfers := transfers st ++
           [(AddressOwner (creator content), OCoin payment);
            (AddressOwner (sender (ctx st)),
             OReceipt (minted_receipt content clock (ctx st)))];
         emitted := emitted st ++
           [ContentPurchased (id content)
              (tx_hash (ctx st), ids_created (ctx st))
              (sender (ctx st)) (price content) (timestamp_ms clock)] |}.
Proof.
  intros Hle. unfold purchase_and_grant_access, bind, assert.
  destruct (coin_value payment >=? price content) eqn:E.
  - unfold public_transfer, object_new, ctx_sender, emit; cbn.
    rewrite <- app_assoc. reflexivity.
  - exfalso. rewrite Z.geb_leb in E. apply Z.leb_gt in E. lia.
Qed.

(** ** Sums and receipt sets over the object store *)

Lemma holding_comm (a : N) (t1 t2 : Owner * Object) (y : Z) :
  holding a t1 + (holding a t2 + y) = holding a t2 + (holding a t1 + y).
Proof. lia. Qed.

Lemma fold_holding_insert (a : N) (m : gmap (N * N) (Owner * Object)) k t :
  m !! k = None ->
  map_fold (fun _ t acc => holding a t + acc) 0 (<[k := t]> m)
  = holding a t + map_fold (fun _ t acc => holding a t + acc) 0 m.
Proof.
  intros Hk.
  apply (map_fold_insert_L (fun _ t acc => holding a t + acc)); [|exact Hk].
  intros; apply holding_comm.
Qed.

Lemma fold_holding_delete (a : N) (m : gmap (N * N) (Owner * Object)) k t :
  m !! k = Some t ->
  map_fold (fun _ t acc => holding a t + acc) 0 m
  = holding a t + map_fold (fun _ t acc => holding a t + acc) 0 (delete k m).
Proof.
  intros Hk.
  apply (map_fold_delete_L (fun _ t acc => holding a t + acc)); [|exact Hk].
  intros; apply holding_comm.
Qed.

(** Handing a stored object to a new owner moves its holding. *)
Lemma fold_holding_reown (a : N) (m : gmap (N * N) (Owner * Object)) k t t' :
  m !! k = Some t ->
  map_fold (fun _ t acc => holding a t + acc) 0 (<[k := t']> (delete k m))
  = map_fold (fun _ t acc => holding a t + acc) 0 m
    - holding a t + holding a t'.
Proof.
  intros Hk.
  rewrite fold_holding_insert by apply lookup_delete_eq.
  rewrite (fold_holding_delete a m k t Hk). lia.
Qed.

Lemma purchase_tx_underpaid l c content payment clock :
  objects l !! id content = Some (Shared, OContent content) ->
  objects l !! coin_id payment
    = Some (AddressOwner (sender c), OCoin payment) ->
  coin_value payment < price content ->
  purchase_tx l c (id content) (coin_id payment) clock
  = (MoveAbort EInsufficientPayment, l).
Proof.
  intros Hc Hp Hlt. unfold purchase_tx. rewrite Hc, Hp, N.eqb_refl.
  rewrite purchase_underpaid by assumption. reflexivity.
Qed.

Lemma purchase_tx_paid l c content payment clock :
  objects l !! id content = Some (Shared, OContent content) ->
  objects l !! coin_id payment
    = Some (AddressOwner (sender c), OCoin payment) ->
  price content <= coin_value payment ->
  purchase_tx l c (id content) (coin_id payment) clock
  = (Success, purchased l c content payment clock).
Proof.
  intros Hc Hp Hle. unfold purchase_tx. rewrite Hc, Hp, N.eqb_refl.
  rewrite purchase_paid by assumption. reflexivity.
Qed.

Lemma receipts_of_purchased l c content payment clock a :
  objects l !! coin_id payment
    = Some (AddressOwner (sender c), OCoin payment) ->
  objects l !! (tx_hash c, ids_created c) = None ->
  receipts_of (purchased l c content payment clock) a
  = if N.eqb (sender c) a
    then <[(tx_hash c, ids_created c) := minted_receipt content clock c]>
           (receipts_of l a)
    else receipts_of l a.
Proof.
  intros Hp Hfresh. unfold receipts_of, purchased; cbn [objects].
  assert (Hcoin : omap (receipt_of a)
            (<[coin_id payment :=
                 (AddressOwner (creator content), OCoin payment)]>
               (delete (coin_id payment) (objects l)))
          = omap (receipt_of a) (objects l)).
  { rewrite omap_insert_None by reflexivity.
    rewrite omap_delete, delete_delete_eq. apply delete_id.
    rewrite lookup_omap, Hp. reflexivity. }
  destruct (N.eqb (sender c) a) eqn:E.
  - rewrite (omap_insert_Some _ _ _ _ (minted_receipt content clock c)).
    + rewrite Hcoin. reflexivity.
    + cbn. rewrite E. reflexivity.
  - rewrite omap_insert_None by (cbn; rewrite E; reflexivity).
    rewrite Hcoin. apply delete_id.
    rewrite lookup_omap, Hfresh. reflexivity.
Qed.

Lemma balance_purchased l c content payment clock a :
  objects l !! coin_id payment
    = Some (AddressOwner (sender c), OCoin payment) ->
  objects l !! (tx_hash c, ids_created c) = None ->
  balance (purchased l c content payment clock) a
  = balance l a
    - (if N.eqb (sender c) a then coin_value payment else 0)
    + (if N.eqb (creator content) a then coin_value payment else 0).
Proof.
  intros Hp Hfresh. unfold balance, purchased; cbn [objects].
  rewrite fold_holding_insert.
  - rewrite (fold_holding_reown a _ _ _ _ Hp). cbn. lia.
  - destruct (decide ((tx_hash c, ids_created c) = coin_id payment)) as [e|n].
    + rewrite e in Hfresh. congruence.
    + rewrite lookup_insert_ne by congruence.
      rewrite lookup_delete_ne by congruence. exact Hfresh.
Qed.

Lemma purchased_lookup_coin l c content payment clock :
  objects l !! coin_id payment
    = Some (AddressOwner (sender c), OCoin payment) ->
  objects l !! (tx_hash c, ids_created c) = None ->
  objects (purchased l c content payment clock) !! coin_id payment
  = Some (AddressOwner (creator content), OCoin payment).
Proof.
  intros Hp Hfresh. unfold purchased; cbn [objects].
  rewrite lookup_insert_ne by congruence.
  apply lookup_insert_eq.
Qed.

Lemma purchased_lookup_other l c content payment clock k :
  k <> coin_id payment ->
  k <> (tx_hash c, ids_created c) ->
  objects (purchased l c content payment clock) !! k = objects l !! k.
Proof.
  intros H1 H2. unfold purchased; cbn [objects].
  rewrite lookup_insert_ne by congruence.
  rewrite lookup_insert_ne by congruence.
  apply lookup_delete_ne. congruence.
Qed.

(** ** Atomicity *)

(** C1. A purchase whose payment coin is worth less than the price aborts
    with [EInsufficientPayment] and leaves the ledger exactly as it was:
    in particular the creator's balance and the buyer's receipts are
    unchanged.  A purchase whose payment is worth at least the price
    succeeds and mints exactly one receipt: the buyer's receipts are the
    old ones plus one under a new id, and nobody else's receipts change. *)
Theorem purchase_all_or_nothing l c content payment clock :
  objects l !! id content = Some (Shared, OContent content) ->
  objects l !! coin_id payment
    = Some (AddressOwner (sender c), OCoin payment) ->
  objects l !! (tx_hash c, ids_created c) = None ->
  let r := purchase_tx l c (id content) (coin_id payment) clock in
  (coin_value payment < price content ->
     r.1 = MoveAbort EInsufficientPayment /\
     r.2 = l /\
     balance r.2 (creator content) = balance l (creator content) /\
     receipts_of r.2 (sender c) = receipts_of l (sender c))
  /\
  (price content <= coin_value payment ->
     r.1 = Success /\
     receipts_of l (sender c) !! (tx_hash c, ids_created c) = None /\
     receipts_of r.2 (sender c)
       = <[(tx_hash c, ids_created c) := minted_receipt content clock c]>
           (receipts_of l (sender c)) /\
     size (receipts_of r.2 (sender c))
       = S (size (receipts_of l (sender c))) /\
     (forall a, a <> sender c -> receipts_of r.2 a = receipts_of l a)).
Proof.
  intros Hc Hp Hfresh r. subst r. split; intros Hv.
  - rewrite purchase_tx_underpaid by assumption. cbn. auto.
  - rewrite purchase_tx_paid by assumption. cbn [fst snd].
    assert (Hnone : receipts_of l (sender c) !! (tx_hash c, ids_created c)
                    = None).
    { unfold receipts_of. rewrite lookup_omap, Hfresh. reflexivity. }
    assert (Hmine : receipts_of (purchased l c content payment clock)
                      (sender c)
                    = <[(tx_hash c, ids_created c) :=
                          minted_receipt content clock c]>
                        (receipts_of l (sender c))).
    { rewrite receipts_of_purchased by assumption.
      rewrite N.eqb_refl. reflexivity. }
    repeat split.
    + exact Hnone.
    + exact Hmine.
    + rewrite Hmine. apply map_size_insert_None. exact Hnone.
    + intros a Ha. rewrite receipts_of_purchased by assumption.
      destruct (N.eqb (sender c) a) eqn:E; [|reflexivity].
      apply N.eqb_eq in E. congruence.
Qed.

Lemma purchase_all_or_nothing_witness :
  let r := purchase_tx genesis buyer_ctx (id article) (coin_id coin_half)
             noon in
  (coin_value coin_half < price article ->
     r.1 = MoveAbort EInsufficientPayment /\
     r.2 = genesis /\
     balance r.2 (creator article) = balance genesis (creator article) /\
     receipts_of r.2 (sender buyer_ctx)
       = receipts_of genesis (sender buyer_ctx))
  /\
  (price article <= coin_value coin_half ->
     r.1 = Success /\
     receipts_of genesis (sender buyer_ctx)
       !! (tx_hash buyer_ctx, ids_created buyer_ctx) = None /\
     receipts_of r.2 (sender buyer_ctx)
       = <[(tx_hash buyer_ctx, ids_created buyer_ctx) :=
             minted_receipt article noon buyer_ctx]>
           (receipts_of genesis (sender buyer_ctx)) /\
     size (receipts_of r.2 (sender buyer_ctx))
       = S (size (receipts_of genesis (sender buyer_ctx))) /\
     (forall a, a <> sender buyer_ctx ->
        receipts_of r.2 a = receipts_of genesis a)).
Proof.
  apply (purchase_all_or_nothing genesis buyer_ctx article coin_half noon);
    vm_compute; reflexivity.
Defined.

(** ** The receipt *)

(** C2. A successful purchase hands out exactly the payment coin and one
    receipt.  The receipt names the purchased item and its title, records
    the item's price (not the value of the payment), the sender as
    purchaser and the clock's milliseconds, and ends up owned by the
    sender. *)
Theorem receipt_records_purchase l c content payment clock :
  objects l !! id content = Some (Shared, OContent content) ->
  objects l !! coin_id payment
    = Some (AddressOwner (sender c), OCoin payment) ->
  price content <= coin_value payment ->
  exists (st : TxState) (l' : Ledger) (receipt : AccessReceipt),
    purchase_and_grant_access content payment clock (start c) = Done tt st /\
    transfers st = [(AddressOwner (creator content), OCoin payment);
                    (AddressOwner (sender c), OReceipt receipt)] /\
    purchase_tx l c (id content) (coin_id payment) clock = (Success, l') /\
    objects l' !! receipt_id receipt
      = Some (AddressOwner (sender c), OReceipt receipt) /\
    content_id receipt = id content /\
    content_title receipt = title content /\
    price_paid receipt = price content /\
    purchaser receipt = sender c /\
    timestamp receipt = timestamp_ms clock.
Proof.
  intros Hc Hp Hv.
  eexists _, (purchased l c content payment clock),
          (minted_receipt content clock c).
  split; [apply purchase_paid; exact Hv|].
  split; [reflexivity|].
  split; [apply purchase_tx_paid; assumption|].
  split; [apply lookup_insert_eq|].
  repeat split.
Qed.

Lemma receipt_records_purchase_witness :
  exists (st : TxState) (l' : Ledger) (receipt : AccessReceipt),
    purchase_and_grant_access article coin_double noon (start buyer_ctx)
      = Done tt st /\
    transfers st = [(AddressOwner (creator article), OCoin coin_double);
                    (AddressOwner (sender buyer_ctx), OReceipt receipt)] /\
    purchase_tx genesis buyer_ctx (id article) (coin_id coin_double) noon
      = (Success, l') /\
    objects l' !! receipt_id receipt
      = Some (AddressOwner (sender buyer_ctx), OReceipt receipt) /\
    content_id receipt = id article /\
    content_title receipt = title article /\
    price_paid receipt = price article /\
    purchaser receipt = sender buyer_ctx /\
    timestamp receipt = timestamp_ms noon.
Proof.
  apply (receipt_records_purchase genesis buyer_ctx article coin_double noon);
    vm_compute; [reflexivity | reflexivity | discriminate].
Defined.

(** ** The payment *)

(** C3. A successful purchase hands the payment coin itself, with its
    whole value, to the item's creator.  The sender's holdings fall and
    the creator's rise by the coin's full value, whatever the price; every
    other coin in the store stays with its owner, so nothing comes back
    to the sender. *)
Theorem payment_transferred_in_full l c content payment clock :
  objects l !! id content = Some (Shared, OContent content) ->
  objects l !! coin_id payment
    = Some (AddressOwner (sender c), OCoin payment) ->
  objects l !! (tx_hash c, ids_created c) = None ->
  price content <= coin_value payment ->
  exists l' : Ledger,
    purchase_tx l c (id content) (coin_id payment) clock = (Success, l') /\
    objects l' !! coin_id payment
      = Some (AddressOwner (creator content), OCoin payment) /\
    (forall a, balance l' a
       = balance l a
         - (if N.eqb (sender c) a then coin_value payment else 0)
         + (if N.eqb (creator content) a then coin_value payment else 0)) /\
    (forall k o coin, objects l' !! k = Some (o, OCoin coin) ->
       k <> coin_id payment -> objects l !! k = Some (o, OCoin coin)).
Proof.
  intros Hc Hp Hfresh Hv.
  exists (purchased l c content payment clock).
  split; [apply purchase_tx_paid; assumption|].
  split; [apply purchased_lookup_coin; assumption|].
  split; [intros a; apply balance_purchased; assumption|].
  intros k o coin Hk Hne.
  destruct (decide (k = (tx_hash c, ids_created c))) as [->|Hne'].
  - unfold purchased in Hk; cbn [objects] in Hk.
    rewrite lookup_insert_eq in Hk. discriminate.
  - rewrite purchased_lookup_other in Hk by assumption. exact Hk.
Qed.

Lemma payment_transferred_in_full_witness :
  exists l' : Ledger,
    purchase_tx genesis buyer_ctx (id article) (coin_id coin_double) noon
      = (Success, l') /\
    objects l' !! coin_id coin_double
      = Some (AddressOwner (creator article), OCoin coin_double) /\
    (forall a, balance l' a
       = balance genesis a
         - (if N.eqb (sender buyer_ctx) a then coin_value coin_double else 0)
         + (if N.eqb (creator article) a
            then coin_value coin_double else 0)) /\
    (forall k o coin, objects l' !! k = Some (o, OCoin coin) ->
       k <> coin_id coin_double ->
       objects genesis !! k = Some (o, OCoin coin)).
Proof.
  apply (payment_transferred_in_full genesis buyer_ctx article coin_double
           noon); vm_compute; [reflexivity .. | discriminate].
Defined.

(** The two scenarios of the protocol description, run on the model. *)

Example exact_payment_scenario :
  let r := purchase_tx genesis buyer_ctx (id article) (coin_id coin_exact)
             noon in
  r.1 = Success /\
  balance r.2 12%N = balance genesis 12%N + 1000000000 /\
  size (receipts_of r.2 11%N) = 1%nat /\
  price_paid <$> (receipts_of r.2 11%N !! (7%N, 0%N)) = Some 1000000000.
Proof. vm_compute. repeat split. Qed.

Example half_payment_scenario :
  let r := purchase_tx genesis buyer_ctx (id article) (coin_id coin_half)
             noon in
  r.1 = MoveAbort EInsufficientPayment /\
  balance r.2 12%N = balance genesis 12%N /\
  balance r.2 11%N = balance genesis 11%N /\
  size (receipts_of r.2 11%N) = 0%nat.
Proof. vm_compute. repeat split. Qed.

End ContentAccessFacts.

(* ===================================================================== *)
(** * Properties of the SDK                                              *)
(* ===================================================================== *)

Section Base64Facts.
Import Sdk.

Lemma list_ind3 {A} (P : list A -> Prop) :
  P [] ->
  (forall a, P [a]) ->
  (forall a b, P [a; b]) ->
  (forall a b c l, P l -> P (a :: b :: c :: l)) ->
  forall l, P l.
Proof.
  intros H0 H1 H2 H3.
  fix IH 1.
  intros [|a [|b [|c l]]];
    [exact H0 | apply H1 | apply H2 | apply H3; apply IH].
Qed.

Lemma base64_value_char (n : N) :
  (n < 64)%N -> base64_value (base64_char n) = Some n.
Proof.
  intros Hn. rewrite <- (N2Nat.id n).
  assert (Hm : (N.to_nat n < 64)%nat) by lia.
  clear Hn. generalize dependent (N.to_nat n). clear n. intros m Hm.
  do 64 (destruct m as [|m]; [reflexivity|]). lia.
Qed.

Lemma base64_char_not_pad (n : N) :
  (n < 64)%N -> Ascii.eqb (base64_char n) "="%char = false.
Proof.
  intros Hn. rewrite <- (N2Nat.id n).
  assert (Hm : (N.to_nat n < 64)%nat) by lia.
  clear Hn. generalize dependent (N.to_nat n). clear n. intros m Hm.
  do 64 (destruct m as [|m]; [reflexivity|]). lia.
Qed.

Lemma base64_sextets_char (n : N) (s : string) :
  (n < 64)%N ->
  base64_sextets (String (base64_char n) s) = n :: base64_sextets s.
Proof.
  intros Hn. cbn [base64_sextets].
  rewrite base64_char_not_pad, base64_value_char by assumption. reflexivity.
Qed.

Lemma byte_of_to_N (b : byte) (n : N) :
  n = Byte.to_N b -> byte_of_N n = b.
Proof.
  intros ->. unfold byte_of_N.
  rewrite N.mod_small by (pose proof (Byte.to_N_bounded b); lia).
  rewrite Byte.of_to_N. reflexivity.
Qed.

Ltac sextet_bounds :=
  repeat match goal with
         | b : byte |- _ =>
             lazymatch goal with
             | _ : (Byte.to_N b <= 255)%N |- _ => fail
             | _ => pose proof (Byte.to_N_bounded b)
             end
         end;
  zify; Z.to_euclidean_division_equations; lia.

(** What [Buffer] writes as base64 it reads back unchanged. *)
Lemma base64_roundtrip (bytes : list byte) :
  base64_decode (base64_encode bytes) = bytes.
Proof.
  unfold base64_decode.
  induction bytes as [|a|a b|a b c rest IH] using list_ind3.
  - reflexivity.
  - cbn [base64_encode].
    rewrite !base64_sextets_char by sextet_bounds.
    cbn [base64_sextets Ascii.eqb Bool.eqb base64_bytes].
    f_equal. apply byte_of_to_N. sextet_bounds.
  - cbn [base64_encode].
    rewrite !base64_sextets_char by sextet_bounds.
    cbn [base64_sextets Ascii.eqb Bool.eqb base64_bytes].
    f_equal; [|f_equal]; apply byte_of_to_N; sextet_bounds.
  - cbn [base64_encode].
    rewrite !base64_sextets_char by sextet_bounds.
    cbn [base64_bytes]. rewrite IH.
    f_equal; [|f_equal; [|f_equal]]; apply byte_of_to_N; sextet_bounds.
Qed.

Lemma base64_encode_nonempty (bytes : list byte) :
  bytes <> [] -> base64_encode bytes <> EmptyString.
Proof.
  destruct bytes as [|a [|b [|c rest]]]; [congruence | discriminate ..].
Qed.

End Base64Facts.

Section ServerFacts.
Import Sdk SdkSamples.

(** ** Building the envelope *)

(** The envelope [buildPurchaseTransaction] returns, and that building it
    leaves the world as it was. *)
Lemma buildPurchaseTransaction_envelope this params w :
  buildPurchaseTransaction this params w
  = (Returned
       {| commands :=
            [SplitCoins GasCoin [Pure (params_price params)];
             MoveCall
               (packageId this ++ "::" ++ moduleName this
                  ++ "::purchase_and_grant_access")
               [Object (contentObjectId params);
                NestedResult 0 0;
                Object (or_default (clockObjectId params) "0x6")]];
          sender := Some (buyerAddress params);
          gasOwner := toSuiAddress <$> sponsorKeypair this |},
     w).
Proof.
  unfold buildPurchaseTransaction. cbn.
  destruct (sponsorKeypair this); reflexivity.
Qed.

(** Whose coin the price is split from. *)
Lemma buildPurchaseTransaction_gas_coin this params w tx :
  buildPurchaseTransaction this params w = (Returned tx, w) ->
  gasCoinOwner tx
  = Some (match sponsorKeypair this with
          | Some keypair => toSuiAddress keypair
          | None => buyerAddress params
          end).
Proof.
  rewrite buildPurchaseTransaction_envelope. intros H.
  inversion H; subst. unfold gasCoinOwner. cbn.
  destruct (sponsorKeypair this); reflexivity.
Qed.

(** C7. With a sponsor configured, the envelope built for buyer [0xb0b]
    has the commands, the sender and the gas owner it should have, and
    building it leaves the world untouched; but the coin the price is split
    from, [tx.gas], is then the sponsor's coin, not the buyer's. *)
Theorem sponsored_purchase_splits_sponsor_coin :
  exists tx : Transaction,
    buildPurchaseTransaction sponsored_server
      {| contentObjectId := "0xa"; params_price := "1000000000";
         params_creator := "0xc"; buyerAddress := "0xb0b";
         clockObjectId := None |} dawn
    = (Returned tx, dawn) /\
    commands tx
    = [SplitCoins GasCoin [Pure "1000000000"];
       MoveCall "0x402::content_access::purchase_and_grant_access"
         [Object "0xa"; NestedResult 0 0; Object "0x6"]] /\
    sender tx = Some "0xb0b" /\
    gasOwner tx = Some (toSuiAddress sponsor) /\
    gasCoinOwner tx = Some "0x5" /\
    gasCoinOwner tx <> Some "0xb0b".
Proof.
  eexists. split; [reflexivity|]. cbn. repeat split. discriminate.
Qed.

(** Without a sponsor the same envelope splits the price from the buyer's
    own gas coin. *)
Example unsponsored_purchase_splits_buyer_coin :
  exists tx : Transaction,
    buildPurchaseTransaction plain_server
      {| contentObjectId := "0xa"; params_price := "1000000000";
         params_creator := "0xc"; buyerAddress := "0xb0b";
         clockObjectId := None |} dawn
    = (Returned tx, dawn) /\
    gasOwner tx = None /\
    gasCoinOwner tx = Some "0xb0b".
Proof. eexists. split; [reflexivity|]. cbn. split; reflexivity. Qed.

(** ** The payment-required response *)

(** C9, as the code has it.  Whenever the envelope built for the item and
    the buyer serialises, to a byte string that is not empty,
    [generateX402Response] returns a response with status code 402, the
    item's price as amount, the item's creator as recipient, the base64
    text of exactly those bytes as transaction bytes, which is not empty
    and decodes to them again, and a description made from the item's
    title. *)
Theorem generateX402Response_payment_required
    this content buyer w tx bytes :
  buildPurchaseTransaction this
    {| contentObjectId := id content; params_price := price content;
       params_creator := creator content; buyerAddress := buyer;
       clockObjectId := None |} w = (Returned tx, w) ->
  build (client this) tx = Returned bytes ->
  bytes <> [] ->
  exists response : X402Response,
    generateX402Response this content buyer w
    = (Returned response,
       {| now := now w; trace := trace w ++ [Built tx] |}) /\
    statusCode response = 402 /\
    amount (paymentRequired response) = price content /\
    recipient (paymentRequired response) = creator content /\
    transactionBytes (paymentRequired response) = base64_encode bytes /\
    transactionBytes (paymentRequired response) <> EmptyString /\
    base64_decode (transactionBytes (paymentRequired response)) = bytes /\
    description (paymentRequired response)
    = ("Purchase access to: " ++ title content)%string.
Proof.
  intros Htx Hbuild Hbytes.
  eexists. split.
  - unfold generateX402Response, bind. rewrite Htx.
    unfold await_build, bind, log, lift. cbn. rewrite Hbuild. reflexivity.
  - cbn. repeat split.
    + apply base64_encode_nonempty. exact Hbytes.
    + apply base64_roundtrip.
Qed.

Lemma generateX402Response_payment_required_witness :
  exists response : X402Response,
    generateX402Response sponsored_server item_a "0xb0b" dawn
    = (Returned response,
       {| now := now dawn;
          trace := trace dawn ++
            [Built
               {| commands :=
                    [SplitCoins GasCoin [Pure "1000000000"];
                     MoveCall
                       "0x402::content_access::purchase_and_grant_access"
                       [Object "0xa"; NestedResult 0 0; Object "0x6"]];
                  sender := Some "0xb0b";
                  gasOwner := Some "0x5" |}] |}) /\
    statusCode response = 402 /\
    amount (paymentRequired response) = price item_a /\
    recipient (paymentRequired response) = creator item_a /\
    transactionBytes (paymentRequired response)
    = base64_encode
        (serialize
           {| commands :=
                [SplitCoins GasCoin [Pure "1000000000"];
                 MoveCall "0x402::content_access::purchase_and_grant_access"
                   [Object "0xa"; NestedResult 0 0; Object "0x6"]];
              sender := Some "0xb0b";
              gasOwner := Some "0x5" |}) /\
    transactionBytes (paymentRequired response) <> EmptyString /\
    base64_decode (transactionBytes (paymentRequired response))
    = serialize
        {| commands :=
             [SplitCoins GasCoin [Pure "1000000000"];
              MoveCall "0x402::content_access::purchase_and_grant_access"
                [Object "0xa"; NestedResult 0 0; Object "0x6"]];
           sender := Some "0xb0b";
           gasOwner := Some "0x5" |} /\
    description (paymentRequired response)
    = ("Purchase access to: " ++ title item_a)%string.
Proof.
  apply (generateX402Response_payment_required sponsored_server item_a
           "0xb0b" dawn);
    [reflexivity | reflexivity | vm_compute; discriminate].
Defined.

(** When the envelope does not serialise, there is no response: the error
    of [tx.build] is what the caller gets. *)
Lemma generateX402Response_build_fails this content buyer w e :
  (forall tx, build (client this) tx = Thrown e) ->
  (generateX402Response this content buyer w).1 = Thrown e.
Proof.
  intros Hbuild. unfold generateX402Response, bind.
  rewrite buildPurchaseTransaction_envelope.
  unfold await_build, bind, log, lift. cbn. rewrite Hbuild. reflexivity.
Qed.

(** C9, as stated, fails: not every item and buyer get a response.  For an
    item whose object the node does not know, the envelope is put together
    but [tx.build] rejects it; [generateX402Response] awaits [tx.build]
    outside any [try], so the caller gets that error and no response with
    status code 402, or with any other. *)
Lemma generateX402Response_without_response :
  build pruned_node
    {| commands :=
         [SplitCoins GasCoin [Pure "1000000000"];
          MoveCall "0x402::content_access::purchase_and_grant_access"
            [Object "0xdead"; NestedResult 0 0; Object "0x6"]];
       sender := Some "0xb0b";
       gasOwner := None |}
  = Thrown (Error "Object 0xdead does not exist") /\
  (generateX402Response pruned_server item_gone "0xb0b" dawn).1
  = Thrown (Error "Object 0xdead does not exist") /\
  ~ (exists response : X402Response,
       (generateX402Response pruned_server item_gone "0xb0b" dawn).1
       = Returned response /\
       statusCode response = 402).
Proof.
  split; [reflexivity|]. split; [reflexivity|].
  intros (response & H & _). vm_compute in H. discriminate H.
Qed.

(** ** Sponsoring and executing *)

(** C6. On a server without a sponsor key pair [sponsorAndExecute] throws
    the error "Sponsor keypair required for transaction execution" and
    leaves the world as it was: nothing has been signed, nothing has been
    sent to the node. *)
Theorem sponsorAndExecute_without_sponsor
    this transactionBytes clientSignature clientPublicKey w :
  sponsorKeypair this = None ->
  sponsorAndExecute this transactionBytes clientSignature clientPublicKey w
  = (Thrown (Error "Sponsor keypair required for transaction execution"), w).
Proof.
  intros Hnone. unfold sponsorAndExecute. rewrite Hnone. reflexivity.
Qed.

Lemma sponsorAndExecute_without_sponsor_witness :
  sponsorAndExecute plain_server "aGVsbG8=" "buyer-signature" "buyer-key" dawn
  = (Thrown (Error "Sponsor keypair required for transaction execution"),
     dawn).
Proof.
  apply (sponsorAndExecute_without_sponsor plain_server); reflexivity.
Defined.

(** C4, as the code has it.  With a sponsor configured, [sponsorAndExecute]
    decodes the bytes it is given, has the sponsor sign exactly those bytes
    and sends them to the node with the buyer's signature and the
    sponsor's.  It takes no content id and compares the bytes with nothing;
    what it returns is the digest and status the node reports, and an error
    of the node is logged and thrown on. *)
Theorem sponsorAndExecute_submits_what_it_is_given
    this keypair transactionBytes clientSignature clientPublicKey w :
  sponsorKeypair this = Some keypair ->
  let txBytes := base64_decode transactionBytes in
  let sponsorSig := signTransaction keypair txBytes in
  let submitted :=
    [Signed (toSuiAddress keypair) txBytes;
     Executed txBytes [clientSignature; sponsorSig]] in
  sponsorAndExecute this transactionBytes clientSignature clientPublicKey w
  = match executeTransactionBlock (client this) txBytes
            [clientSignature; sponsorSig] with
    | Returned result =>
        (Returned
           {| result_digest := digest result;
              result_status :=
                match status_of result with
                | Some "success" => success
                | _ => failure
                end;
              result_effects := effects result |},
         {| now := now w; trace := trace w ++ submitted |})
    | Thrown e =>
        (Thrown e,
         {| now := now w;
            trace := trace w ++ submitted ++
              [ConsoleError "Transaction execution failed:" e] |})
    end.
Proof.
  intros Hsome. unfold sponsorAndExecute. rewrite Hsome.
  unfold try_catch, bind, await_signTransaction,
    await_executeTransactionBlock, bind, log, lift, ret, console_error,
    throw, log.
  cbn.
  destruct (executeTransactionBlock (client this)
              (base64_decode transactionBytes)
              [clientSignature;
               signTransaction keypair (base64_decode transactionBytes)])
    as [result|e]; cbn; rewrite <- !app_assoc; reflexivity.
Qed.

Lemma sponsorAndExecute_submits_what_it_is_given_witness :
  sponsorAndExecute sponsored_server "aGVsbG8=" "buyer-signature" "buyer-key"
    dawn
  = (Returned
       {| result_digest := "D1"; result_status := success;
          result_effects :=
            Some {| effects_status := Some {| status := "success" |} |} |},
     {| now := 0;
        trace :=
          [Signed "0x5" (base64_decode "aGVsbG8=");
           Executed (base64_decode "aGVsbG8=")
             ["buyer-signature";
              signTransaction sponsor (base64_decode "aGVsbG8=")]] |}).
Proof.
  apply (sponsorAndExecute_submits_what_it_is_given sponsored_server sponsor
           "aGVsbG8=" "buyer-signature" "buyer-key" dawn).
  reflexivity.
Defined.

(** C4, as stated, fails: the envelope built for item [0xb] at price 5 is
    not the envelope of item [0xa] at price 1000000000, and a request that
    carries it is co-signed and submitted all the same. *)
Lemma sponsorAndExecute_submits_foreign_envelope :
  exists (for_a for_b : X402Response) (tx_b : Transaction),
    (generateX402Response sponsored_server item_a "0xb0b" dawn).1
    = Returned for_a /\
    (generateX402Response sponsored_server item_b "0xb0b" dawn).1
    = Returned for_b /\
    transactionBytes (paymentRequired for_b)
    <> transactionBytes (paymentRequired for_a) /\
    buildPurchaseTransaction sponsored_server
      {| contentObjectId := "0xb"; params_price := "5";
         params_creator := "0xc"; buyerAddress := "0xb0b";
         clockObjectId := None |} dawn = (Returned tx_b, dawn) /\
    build node tx_b = Returned (serialize tx_b) /\
    let run :=
      sponsorAndExecute sponsored_server
        (transactionBytes (paymentRequired for_b))
        "buyer-signature" "buyer-key" dawn in
    (exists result, run.1 = Returned result /\ result_status result = success)
    /\
    trace run.2
    = [Signed "0x5" (serialize tx_b);
       Executed (serialize tx_b)
         ["buyer-signature"; signTransaction sponsor (serialize tx_b)]].
Proof.
  eexists _, _, _.
  split; [reflexivity|].
  split; [reflexivity|].
  split; [vm_compute; discriminate|].
  split; [reflexivity|].
  split; [reflexivity|].
  split.
  - eexists. split; reflexivity.
  - vm_compute. reflexivity.
Qed.

End ServerFacts.

Section PollingFacts.
Import Sdk SdkSamples.

(** ** One turn of the loop *)

Lemma verdict_status result b :
  verdict result = Some b ->
  status_of result = Some (if b then "success" else "failure").
Proof.
  unfold verdict. destruct (status_of result) as [s|]; [|discriminate].
  destruct (String.eqb s "success") eqn:E1.
  - apply String.eqb_eq in E1. intros [= <-]. congruence.
  - destruct (String.eqb s "failure") eqn:E2; [|discriminate].
    apply String.eqb_eq in E2. intros [= <-]. congruence.
Qed.

Lemma poll_once_decided client digest w w' b :
  poll_once client digest w = (Returned (Some b), w') ->
  trace w' = trace w ++ [QueriedTransaction digest (now w)] /\
  answer_verdict client digest (now w) = Some b.
Proof.
  unfold answer_verdict, poll_once, bind, try_catch,
    await_getTransactionBlock, sleep, ret.
  destruct (getTransactionBlock client digest (now w)) as [latency answer].
  cbn. destruct answer as [result|e]; cbn.
  - destruct (verdict result) as [b'|] eqn:E; cbn; intros H; inversion H.
    subst. cbn. split; reflexivity.
  - intros H; inversion H.
Qed.

Lemma poll_once_undecided client digest w w' :
  poll_once client digest w = (Returned None, w') ->
  trace w' = trace w ++ [QueriedTransaction digest (now w); Slept 1000] /\
  answer_verdict client digest (now w) = None.
Proof.
  unfold answer_verdict, poll_once, bind, try_catch,
    await_getTransactionBlock, sleep, ret.
  destruct (getTransactionBlock client digest (now w)) as [latency answer].
  cbn. destruct answer as [result|e]; cbn.
  - destruct (verdict result) eqn:E; cbn; intros H; inversion H; subst; cbn.
    rewrite <- app_assoc. split; reflexivity.
  - intros H; inversion H; subst; cbn. rewrite <- app_assoc.
    split; reflexivity.
Qed.

Lemma poll_once_returns client digest w w' e :
  poll_once client digest w <> (Thrown e, w').
Proof.
  unfold poll_once, bind, try_catch, await_getTransactionBlock, sleep, ret.
  destruct (getTransactionBlock client digest (now w)) as [latency answer].
  cbn. destruct answer as [result|e']; cbn; [destruct (verdict result)|];
    cbn; discriminate.
Qed.

(** A verdict is the status the node reports: [true] for success, [false]
    for failure. *)
Lemma answer_verdict_status client digest t b :
  answer_verdict client digest t = Some b <->
  exists result,
    (getTransactionBlock client digest t).2 = Returned result /\
    status_of result = Some (if b then "success" else "failure").
Proof.
  unfold answer_verdict. split.
  - destruct (getTransactionBlock client digest t).2 as [result|e];
      [|discriminate].
    intros H. exists result. split; [reflexivity|].
    apply verdict_status. exact H.
  - intros (result & -> & Hs). unfold verdict. rewrite Hs.
    destruct b; reflexivity.
Qed.

(** ** The loop *)

Lemma poll_spec client digest startTime timeoutMs w :
  exists added : list Effect,
    trace (poll client digest startTime timeoutMs w).2 = trace w ++ added /\
    polling digest added /\
    Z.of_nat (length (polls added))
      <= (Z.max 0 (timeoutMs - (now w - startTime)) + 999) / 1000 /\
    match (poll client digest startTime timeoutMs w).1 with
    | Returned b =>
        exists before t,
          added = before ++ [QueriedTransaction digest t] /\
          Forall (fun t' => answer_verdict client digest t' = None)
            (polls before) /\
          answer_verdict client digest t = Some b
    | Thrown e =>
        e = Error "Transaction confirmation timeout" /\
        timeoutMs <= now (poll client digest startTime timeoutMs w).2
                     - startTime /\
        Forall (fun t' => answer_verdict client digest t' = None)
          (polls added)
    end.
Proof.
  funelim (poll client digest startTime timeoutMs w).
  - (* the time is up *)
    exists []. cbn. rewrite app_nil_r.
    repeat split; [constructor | | lia | constructor].
    zify; Z.to_euclidean_division_equations; lia.
  - (* this turn returns *)
    match goal with
    | E : poll_once ?c ?d w = _ |- _ =>
        destruct (poll_once_decided c d w _ _ E) as (Ht & Hv);
        exists [QueriedTransaction d (now w)]; cbn [fst snd];
        split; [exact Ht|]; split; [constructor|]; split;
          [| exists [], (now w);
             split; [reflexivity|]; split; [constructor | exact Hv]]
    end.
    cbn. zify; Z.to_euclidean_division_equations; lia.
  - (* this turn pauses and the loop goes on *)
    match goal with
    | IH : exists _, _ |- _ =>
        destruct IH as (added & Htrace & Hshape & Hbound & Hout)
    end.
    match goal with
    | E : poll_once ?c ?d w = _ |- _ =>
        pose proof (poll_once_pauses c d w _ E) as Hnow;
        destruct (poll_once_undecided c d w _ E) as (Ht & Hv);
        exists (QueriedTransaction d (now w) :: Slept 1000 :: added)
    end.
    split; [rewrite Htrace, Ht, <- app_assoc; reflexivity|].
    split; [constructor; exact Hshape|].
    split.
    + cbn [polls length]. rewrite Nat2Z.inj_succ.
      zify; Z.to_euclidean_division_equations; lia.
    + match goal with
      | |- match ?r.1 with _ => _ end => destruct r.1 as [b|e']
      end.
      * destruct Hout as (before & t & -> & Hbefore & Hlast).
        eexists (_ :: _ :: before), t.
        split; [reflexivity|]. split; [|exact Hlast].
        cbn [polls]. constructor; assumption.
      * destruct Hout as (He & Hlate & Hall).
        split; [exact He|]. split; [exact Hlate|].
        cbn [polls]. constructor; assumption.
  - (* a turn does not throw *)
    match goal with
    | E : poll_once ?c ?d w = _ |- _ =>
        destruct (poll_once_returns c d w _ _ E)
    end.
Qed.

(** ** Waiting for a transaction *)

(** C8, as the code has it.  [waitForTransaction] always settles.  Until
    then it asks the node for the digest, pausing exactly 1000 ms after
    every answer that decides nothing; it sends at most one request per
    started second of the timeout, which is 30000 ms when none is given.
    It returns [true] when a request is answered with status success and
    [false] when one is answered with status failure, whichever comes
    first; when no request is answered with either it throws "Transaction
    confirmation timeout", and by then the timeout has elapsed.  Nothing
    but the digest and the timeout goes into the call: a caller has no
    means to stop it earlier. *)
Theorem waitForTransaction_bounded_polling this digest timeoutMs w :
  let limit := match timeoutMs with Some t => t | None => 30000 end in
  let run := waitForTransaction this digest timeoutMs w in
  let undecided t :=
    answer_verdict (client_client this) digest t = None in
  waitForTransaction this digest None w
  = waitForTransaction this digest (Some 30000) w /\
  exists added : list Effect,
    trace run.2 = trace w ++ added /\
    polling digest added /\
    Z.of_nat (length (polls added)) <= (Z.max 0 limit + 999) / 1000 /\
    match run.1 with
    | Returned b =>
        exists before t result,
          added = before ++ [QueriedTransaction digest t] /\
          Forall undecided (polls before) /\
          (getTransactionBlock (client_client this) digest t).2
          = Returned result /\
          status_of result = Some (if b then "success" else "failure")
    | Thrown e =>
        e = Error "Transaction confirmation timeout" /\
        limit <= now run.2 - now w /\
        Forall undecided (polls added)
    end.
Proof.
  intros limit run undecided. split; [reflexivity|].
  destruct (poll_spec (client_client this) digest (now w) limit w)
    as (added & Htrace & Hshape & Hbound & Hout).
  exists added. subst run. unfold waitForTransaction. fold limit.
  split; [exact Htrace|]. split; [exact Hshape|]. split.
  - replace (limit - (now w - now w)) with limit in Hbound by lia.
    exact Hbound.
  - destruct (poll (client_client this) digest (now w) limit w).1 as [b|e].
    + destruct Hout as (before & t & Hadded & Hbefore & Hlast).
      apply answer_verdict_status in Hlast.
      destruct Hlast as (result & Hr & Hs).
      exists before, t, result. auto.
    + exact Hout.
Qed.

(** C8, as stated, fails: the loop cannot be cancelled.  A caller who waits
    for an unknown digest with a timeout of 3000 ms and gives up after
    500 ms still has requests sent at 1000 ms and at 2000 ms, and the call
    settles only at 3000 ms, with the timeout error. *)
Lemma waitForTransaction_polls_after_abandonment :
  let run := waitForTransaction reader "D3" (Some 3000) dawn in
  run.1 = Thrown (Error "Transaction confirmation timeout") /\
  now run.2 = 3000 /\
  trace run.2
  = [QueriedTransaction "D3" 0; Slept 1000;
     QueriedTransaction "D3" 1000; Slept 1000;
     QueriedTransaction "D3" 2000; Slept 1000] /\
  polls_after 500 (trace run.2) = [1000; 2000].
Proof. vm_compute. repeat split. Qed.

(** The two verdicts, on the sample node. *)
Example waitForTransaction_success :
  (waitForTransaction reader "D1" None dawn).1 = Returned true.
Proof. vm_compute. reflexivity. Qed.

Example waitForTransaction_failure :
  (waitForTransaction reader "D2" None dawn).1 = Returned false.
Proof. vm_compute. reflexivity. Qed.

End PollingFacts.

Section AccessFacts.
Import Sdk SdkSamples.

Variable utf8 : list JsValue -> string.

(** ** The two checks on one answer of the node *)

Lemma some_receipt_matches contentId objects :
  forallb receipt_shaped objects = true ->
  some (receipt_matches contentId) objects
  = Returned (existsb (owns_receipt_for contentId) objects).
Proof.
  induction objects as [|obj objects IH]; [reflexivity|].
  cbn [forallb some existsb]. intros H.
  apply andb_prop in H. destruct H as [Hobj Hrest].
  specialize (IH Hrest).
  unfold receipt_matches, owns_receipt_for, receipt_shaped in *.
  destruct (data obj) as [d|]; [|exact IH].
  destruct (content d) as [[fields|]|]; try exact IH.
  destruct fields; try discriminate. cbn.
  destruct (strict_equals (lookup_prop "content_id" props) contentId);
    [reflexivity | exact IH].
Qed.

Lemma receipts_match contentId objects :
  forallb receipt_shaped objects = true ->
  exists receipts : list AccessReceiptData,
    map_each (to_receipt utf8) (List.filter has_move_content objects)
    = Returned receipts /\
    existsb (fun receipt => String.eqb (Sdk.contentId receipt) contentId)
      receipts
    = existsb (owns_receipt_for contentId) objects.
Proof.
  induction objects as [|obj objects IH].
  - exists []. split; reflexivity.
  - cbn [forallb]. intros H.
    apply andb_prop in H. destruct H as [Hobj Hrest].
    destruct (IH Hrest) as (receipts & Hmap & Hex).
    destruct obj as [[[oid [[fields|]|]]|]];
      try (exists receipts; split; [exact Hmap | exact Hex]).
    destruct fields; try discriminate.
    unfold receipt_shaped in Hobj; cbn in Hobj.
    destruct (lookup_prop "content_id" props) as [| | | |s| |] eqn:El;
      try discriminate.
    eexists (_ :: receipts). split.
    + cbn [List.filter has_move_content data content].
      cbn [map_each]. rewrite Hmap.
      unfold to_receipt; cbn. rewrite El. reflexivity.
    + cbn [existsb]. rewrite Hex.
      unfold owns_receipt_for at 2; cbn. rewrite El. reflexivity.
Qed.

Lemma hasAccess_answer this ownerAddress contentId w :
  (hasAccess this ownerAddress contentId w).1
  = match getOwnedObjects (client this) ownerAddress
            (packageId this ++ "::" ++ moduleName this ++ "::AccessReceipt")
    with
    | Returned objects =>
        match some (receipt_matches contentId) objects with
        | Returned b => Returned b
        | Thrown _ => Returned false
        end
    | Thrown _ => Returned false
    end.
Proof.
  unfold hasAccess, try_catch, bind, await_getOwnedObjects, bind, log, lift.
  cbn.
  destruct (getOwnedObjects (client this) ownerAddress _) as [objects|e];
    [|reflexivity].
  destruct (some (receipt_matches contentId) objects) as [b|e]; reflexivity.
Qed.

Lemma checkAccess_answer this userAddress contentId w :
  (checkAccess utf8 this userAddress contentId w).1
  = match getOwnedObjects (client_client this) userAddress
            (client_packageId this ++ "::" ++ client_moduleName this
               ++ "::AccessReceipt")
    with
    | Returned objects =>
        match map_each (to_receipt utf8)
                (List.filter has_move_content objects) with
        | Returned receipts =>
            Returned
              (existsb (fun receipt =>
                          String.eqb (Sdk.contentId receipt) contentId)
                 receipts)
        | Thrown _ => Returned false
        end
    | Thrown _ => Returned false
    end.
Proof.
  unfold checkAccess, getAccessReceipts, try_catch, bind,
    await_getOwnedObjects, bind, log, lift.
  cbn.
  destruct (getOwnedObjects (client_client this) userAddress _)
    as [objects|e]; [|reflexivity].
  destruct (map_each (to_receipt utf8)
              (List.filter has_move_content objects)) as [receipts|e];
    reflexivity.
Qed.

(** C10. A server and a client that talk to the same node about the same
    package and module compute the same answer for an address and a content
    id: when the node returns the owned receipt objects, both return
    whether one of them has [contentId] as its [content_id]; when the query
    throws, both return [false]. *)
Theorem access_checks_agree node packageId moduleName keypair
    ownerAddress contentId w w' :
  let server := {| client := node; packageId := packageId;
                   sponsorKeypair := keypair; moduleName := moduleName |} in
  let reader := {| client_client := node; client_packageId := packageId;
                   client_moduleName := moduleName |} in
  match getOwnedObjects node ownerAddress
          (packageId ++ "::" ++ moduleName ++ "::AccessReceipt") with
  | Returned objects =>
      forallb receipt_shaped objects = true ->
      (hasAccess server ownerAddress contentId w).1
      = Returned (existsb (owns_receipt_for contentId) objects) /\
      (checkAccess utf8 reader ownerAddress contentId w').1
      = Returned (existsb (owns_receipt_for contentId) objects)
  | Thrown _ =>
      (hasAccess server ownerAddress contentId w).1 = Returned false /\
      (checkAccess utf8 reader ownerAddress contentId w').1 = Returned false
  end.
Proof.
  intros server reader.
  rewrite hasAccess_answer, checkAccess_answer. cbn.
  destruct (getOwnedObjects node ownerAddress _) as [objects|e];
    [|split; reflexivity].
  intros Hshape. split.
  - rewrite some_receipt_matches by exact Hshape. reflexivity.
  - destruct (receipts_match contentId objects Hshape)
      as (receipts & -> & ->). reflexivity.
Qed.

(** The shape matters.  Were the node to render a [content_id] as a number,
    [hasAccess] would compare it strictly with the string and say no, while
    [checkAccess] would first turn it into a string and say yes.  A Move
    [ID] is never rendered that way. *)
Example access_checks_differ_off_shape :
  let stray :=
    {| data := Some {| objectId := "0x72";
                       content := Some (moveObject
                         (JsObject [("content_id", JsNumber 5)])) |} |} in
  receipt_shaped stray = false /\
  some (receipt_matches "5") [stray] = Returned false /\
  (exists receipts,
     map_each (to_receipt utf8) (List.filter has_move_content [stray])
     = Returned receipts /\
     existsb (fun receipt => String.eqb (Sdk.contentId receipt) "5") receipts
     = true).
Proof.
  cbn. repeat split. eexists. split; reflexivity.
Qed.

(** ** A failed query *)

(** C5, as the code has it.  When the ownership query throws, both checks
    return [false]: the error goes to the console and nowhere else.  When
    the query finds no object, they return [false] as well. *)
Theorem access_checks_answer_false_on_failure node packageId moduleName
    keypair ownerAddress contentId w :
  let server := {| client := node; packageId := packageId;
                   sponsorKeypair := keypair; moduleName := moduleName |} in
  let reader := {| client_client := node; client_packageId := packageId;
                   client_moduleName := moduleName |} in
  let structType :=
    (packageId ++ "::" ++ moduleName ++ "::AccessReceipt")%string in
  (forall e,
     getOwnedObjects node ownerAddress structType = Thrown e ->
     hasAccess server ownerAddress contentId w
     = (Returned false,
        {| now := now w;
           trace := trace w ++
             [QueriedOwnedObjects ownerAddress structType;
              ConsoleError "Access check failed:" e] |}) /\
     checkAccess utf8 reader ownerAddress contentId w
     = (Returned false,
        {| now := now w;
           trace := trace w ++
             [QueriedOwnedObjects ownerAddress structType;
              ConsoleError "Failed to fetch access receipts:" e] |}))
  /\
  (getOwnedObjects node ownerAddress structType = Returned [] ->
     hasAccess server ownerAddress contentId w
     = (Returned false,
        {| now := now w;
           trace := trace w ++
             [QueriedOwnedObjects ownerAddress structType] |}) /\
     checkAccess utf8 reader ownerAddress contentId w
     = (Returned false,
        {| now := now w;
           trace := trace w ++
             [QueriedOwnedObjects ownerAddress structType] |})).
Proof.
  intros server reader structType.
  unfold hasAccess, checkAccess, getAccessReceipts, try_catch, bind,
    await_getOwnedObjects, bind, log, lift, console_error, log, ret.
  cbn. fold structType.
  split; [intros e H | intros H]; rewrite H; cbn;
    rewrite <- ?app_assoc; split; reflexivity.
Qed.

End AccessFacts.

Section AccessSamples.
Import Sdk SdkSamples.

Lemma access_checks_agree_witness :
  (hasAccess plain_server "0xb0b" "0xa" dawn).1 = Returned true /\
  (checkAccess latin1 reader "0xb0b" "0xa" dawn).1 = Returned true.
Proof.
  apply (access_checks_agree latin1 node "0x402" "content_access" None
           "0xb0b" "0xa" dawn dawn).
  reflexivity.
Defined.

Lemma access_checks_answer_false_on_failure_witness :
  hasAccess plain_server "0xdead" "0xa" dawn
  = (Returned false,
     {| now := 0;
        trace :=
          [QueriedOwnedObjects "0xdead" "0x402::content_access::AccessReceipt";
           ConsoleError "Access check failed:" (Error "fetch failed")] |}) /\
  checkAccess latin1 reader "0xdead" "0xa" dawn
  = (Returned false,
     {| now := 0;
        trace :=
          [QueriedOwnedObjects "0xdead" "0x402::content_access::AccessReceipt";
           ConsoleError "Failed to fetch access receipts:"
             (Error "fetch failed")] |}).
Proof.
  apply (access_checks_answer_false_on_failure latin1 node "0x402"
           "content_access" None "0xdead" "0xa" dawn).
  reflexivity.
Defined.

(** C5, as stated, fails: a query that fails in transport and a query that
    finds nothing give the caller of [hasAccess] the same [false], and
    likewise the caller of [checkAccess]; no error is thrown. *)
Lemma access_checks_hide_query_failure :
  getOwnedObjects node "0xdead" "0x402::content_access::AccessReceipt"
  = Thrown (Error "fetch failed") /\
  getOwnedObjects node "0xeve" "0x402::content_access::AccessReceipt"
  = Returned [] /\
  (hasAccess plain_server "0xdead" "0xa" dawn).1 = Returned false /\
  (hasAccess plain_server "0xeve" "0xa" dawn).1 = Returned false /\
  (checkAccess latin1 reader "0xdead" "0xa" dawn).1 = Returned false /\
  (checkAccess latin1 reader "0xeve" "0xa" dawn).1 = Returned false.
Proof. vm_compute. repeat split. Qed.

End AccessSamples.

(* ===================================================================== *)
(** * Properties of ledger histories                                     *)
(* ===================================================================== *)

Section HistoryFacts.
Import ContentAccess History LedgerSamples HistorySamples.

(** ** What each call does *)

Lemma init_done st :
  init st
  = Done tt
      {| ctx := {| sender := sender (ctx st); tx_hash := tx_hash (ctx st);
                   ids_created := N.succ (ids_created (ctx st)) |};
         transfers := transfers st ++
           [(Shared,
             ORegistry {| registry_id := (tx_hash (ctx st), ids_created (ctx st));
                          registry_owner := sender (ctx st) |})];
         emitted := emitted st |}.
Proof. reflexivity. Qed.

Lemma create_content_done title description price content_url st :
  create_content title description price content_url st
  = Done tt
      {| ctx := {| sender := sender (ctx st); tx_hash := tx_hash (ctx st);
                   ids_created := N.succ (ids_created (ctx st)) |};
         transfers := transfers st ++
           [(Shared,
             OContent {| id := (tx_hash (ctx st), ids_created (ctx st));
                         title := title; description := description;
                         price := price; content_url := content_url;
                         creator := sender (ctx st) |})];
         emitted := emitted st ++
           [ContentCreated (tx_hash (ctx st), ids_created (ctx st)) title
              price (sender (ctx st))] |}.
Proof. reflexivity. Qed.

(** A purchase transaction either succeeds, on inputs that resolve to a
    shared item and a coin of the sender worth at least the price, and
    leaves the store [purchased] describes, or changes nothing. *)
Lemma purchase_tx_cases l c content_ref payment_ref clock :
  (exists content payment,
     objects l !! content_ref = Some (Shared, OContent content) /\
     objects l !! payment_ref
       = Some (AddressOwner (sender c), OCoin payment) /\
     price content <= coin_value payment /\
     purchase_tx l c content_ref payment_ref clock
     = (Success,
        {| objects :=
             <[(tx_hash c, ids_created c) :=
                 (AddressOwner (sender c),
                  OReceipt (minted_receipt content clock c))]>
               (<[coin_id payment :=
                    (AddressOwner (creator content), OCoin payment)]>
                  (delete payment_ref (objects l)));
           event_log := event_log l ++
             [ContentPurchased (id content) (tx_hash c, ids_created c)
                (sender c) (price content) (timestamp_ms clock)] |}))
  \/
  ((purchase_tx l c content_ref payment_ref clock).2 = l /\
   ((purchase_tx l c content_ref payment_ref clock).1 = InvalidInput \/
    (purchase_tx l c content_ref payment_ref clock).1
    = MoveAbort EInsufficientPayment)).
Proof.
  unfold purchase_tx.
  destruct (objects l !! content_ref) as [[[?|] [?|?|content|?]]|] eqn:Ec;
    try (right; split; [reflexivity | left; repeat case_match; reflexivity]).
  destruct (objects l !! payment_ref) as [[[a|] [payment|?|?|?]]|] eqn:Ep;
    try (right; split; [reflexivity | left; reflexivity]).
  destruct (N.eqb a (sender c)) eqn:Ea;
    [|right; split; [reflexivity | left; reflexivity]].
  apply N.eqb_eq in Ea. subst a.
  destruct (Z_lt_le_dec (coin_value payment) (price content)) as [Hlt|Hle].
  - right. rewrite purchase_underpaid by exact Hlt.
    split; [reflexivity | right; reflexivity].
  - left. exists content, payment.
    rewrite purchase_paid by exact Hle.
    repeat split; try assumption.
Qed.

(** ** The invariants, one transaction at a time *)

Lemma event_backed_kept l l' ev :
  (forall k o r,
     objects l !! k = Some (o, OReceipt r) ->
     objects l' !! k = Some (o, OReceipt r)) ->
  (forall k item,
     objects l !! k = Some (Shared, OContent item) ->
     objects l' !! k = Some (Shared, OContent item)) ->
  event_backed l ev -> event_backed l' ev.
Proof.
  intros Hr Hc. destruct ev as [cid t p cr|cid rid who paid ts]; cbn.
  - intros (item & H & ?). exists item. split; [apply Hc; exact H | assumption].
  - intros (r & H & ?). exists r. split; [apply Hr; exact H | assumption].
Qed.

Lemma consistent_insert_fresh l k t evs :
  consistent l ->
  objects l !! k = None ->
  object_id t.2 = k ->
  (forall o r, t <> (o, OReceipt r)) ->
  Forall (event_backed {| objects := <[k := t]> (objects l);
                          event_log := event_log l ++ evs |}) evs ->
  consistent {| objects := <[k := t]> (objects l);
                event_log := event_log l ++ evs |}.
Proof.
  intros (Hkeyed & Hatt & Hrec) Hfresh Hid Hnot Hevs.
  assert (Hkeep : forall j u, objects l !! j = Some u ->
                              <[k := t]> (objects l) !! j = Some u).
  { intros j u Hj. rewrite lookup_insert_ne; [exact Hj | congruence]. }
  split; [|split].
  - intros j u; cbn. intros Hj.
    apply lookup_insert_Some in Hj as [[<- <-]|[_ Hj]];
      [exact Hid | exact (Hkeyed _ _ Hj)].
  - intros j o r; cbn. intros Hj.
    apply lookup_insert_Some in Hj as [[_ Hj]|[_ Hj]];
      [destruct (Hnot o r Hj)|].
    destruct (Hatt _ _ _ Hj) as (item & Hitem & ?).
    exists item. split; [apply Hkeep; exact Hitem | assumption].
  - unfold recorded; cbn. apply Forall_app. split; [|exact Hevs].
    eapply Forall_impl; [exact Hrec|].
    intros ev. apply event_backed_kept; cbn; intros; apply Hkeep; assumption.
Qed.

Lemma consistent_init l c :
  consistent l -> fresh l c -> consistent (apply l (Init c)).2.
Proof.
  intros Hl Hfresh. unfold apply, call_tx. rewrite init_done.
  unfold publish, store; cbn.
  apply consistent_insert_fresh;
    [exact Hl | exact Hfresh | reflexivity | discriminate | constructor].
Qed.

Lemma consistent_create l c title description price content_url :
  consistent l -> fresh l c ->
  consistent
    (apply l (CreateContent c title description price content_url)).2.
Proof.
  intros Hl Hfresh. unfold apply, call_tx. rewrite create_content_done.
  unfold publish, store; cbn.
  apply consistent_insert_fresh;
    [exact Hl | exact Hfresh | reflexivity | discriminate |].
  repeat constructor. cbn.
  eexists. split; [apply lookup_insert_eq|]. repeat split.
Qed.

Lemma consistent_purchase l c content_ref payment_ref clock :
  consistent l -> fresh l c ->
  consistent (apply l (Purchase c content_ref payment_ref clock)).2.
Proof.
  intros (Hkeyed & Hatt & Hrec) Hfresh. cbn [apply].
  destruct (purchase_tx_cases l c content_ref payment_ref clock)
    as [(content & payment & Hc & Hp & Hle & ->)|[-> _]];
    [|repeat split; assumption].
  cbn [snd]. unfold fresh in Hfresh.
  pose proof (Hkeyed _ _ Hp) as Hpid. cbn in Hpid. rewrite Hpid.
  pose proof (Hkeyed _ _ Hc) as Hcid. cbn in Hcid.
  set (rid := (tx_hash c, ids_created c)) in *.
  assert (Hrp : rid <> payment_ref) by congruence.
  assert (Hrc : rid <> content_ref) by congruence.
  assert (Hcp : content_ref <> payment_ref) by congruence.
  (* what is not a coin stays where it was *)
  assert (Hkeep : forall j u,
            objects l !! j = Some u -> (forall o coin, u <> (o, OCoin coin)) ->
            <[rid := (AddressOwner (sender c),
                      OReceipt (minted_receipt content clock c))]>
              (<[payment_ref :=
                   (AddressOwner (creator content), OCoin payment)]>
                 (delete payment_ref (objects l))) !! j = Some u).
  { intros j u Hj Hu.
    rewrite lookup_insert_ne by congruence.
    rewrite lookup_insert_ne
      by (intros <-; rewrite Hp in Hj; injection Hj as <-; eapply Hu; eauto).
    rewrite lookup_delete_ne
      by (intros <-; rewrite Hp in Hj; injection Hj as <-; eapply Hu; eauto).
    exact Hj. }
  split; [|split].
  - intros j u; cbn. intros Hj.
    apply lookup_insert_Some in Hj as [[<- <-]|[_ Hj]]; [reflexivity|].
    apply lookup_insert_Some in Hj as [[<- <-]|[_ Hj]]; [exact Hpid|].
    apply lookup_delete_Some in Hj as [_ Hj]. exact (Hkeyed _ _ Hj).
  - intros j o r; cbn. intros Hj.
    apply lookup_insert_Some in Hj as [[<- Hj]|[_ Hj]].
    + injection Hj as <- <-. exists content. cbn. rewrite Hcid.
      split; [apply (Hkeep _ _ Hc); discriminate | split; reflexivity].
    + apply lookup_insert_Some in Hj as [[_ Hj]|[_ Hj]]; [discriminate Hj|].
      apply lookup_delete_Some in Hj as [_ Hj].
      destruct (Hatt _ _ _ Hj) as (item & Hitem & ?).
      exists item.
      split; [apply (Hkeep _ _ Hitem); discriminate | assumption].
  - unfold recorded; cbn. apply Forall_app. split.
    + eapply Forall_impl; [exact Hrec|].
      intros ev. apply event_backed_kept; cbn; intros;
        match goal with
        | Hj : objects l !! _ = Some _ |- _ => apply (Hkeep _ _ Hj)
        end; discriminate.
    + repeat constructor. cbn.
      eexists. split; [apply lookup_insert_eq|]. repeat split.
Qed.

Lemma consistent_apply l tx :
  consistent l -> fresh l (tx_context tx) -> consistent (apply l tx).2.
Proof.
  destruct tx; cbn [tx_context];
    [apply consistent_init | apply consistent_create
     | apply consistent_purchase].
Qed.

(** ** Sums over the store *)

Lemma coin_amount_comm (t1 t2 : Owner * Object) (y : Z) :
  coin_amount t1 + (coin_amount t2 + y) = coin_amount t2 + (coin_amount t1 + y).
Proof. lia. Qed.

Lemma supply_insert (m : gmap (N * N) (Owner * Object)) k t :
  m !! k = None ->
  map_fold (fun _ t acc => coin_amount t + acc) 0 (<[k := t]> m)
  = coin_amount t + map_fold (fun _ t acc => coin_amount t + acc) 0 m.
Proof.
  intros Hk.
  apply (map_fold_insert_L (fun _ t acc => coin_amount t + acc)); [|exact Hk].
  intros; apply coin_amount_comm.
Qed.

Lemma supply_delete (m : gmap (N * N) (Owner * Object)) k t :
  m !! k = Some t ->
  map_fold (fun _ t acc => coin_amount t + acc) 0 m
  = coin_amount t
    + map_fold (fun _ t acc => coin_amount t + acc) 0 (delete k m).
Proof.
  intros Hk.
  apply (map_fold_delete_L (fun _ t acc => coin_amount t + acc)); [|exact Hk].
  intros; apply coin_amount_comm.
Qed.

Lemma supply_apply l tx :
  keyed l -> fresh l (tx_context tx) ->
  total_supply (apply l tx).2 = total_supply l.
Proof.
  intros Hkeyed Hfresh. unfold total_supply.
  destruct tx as [c|c t d p u|c content_ref payment_ref clock];
    cbn [tx_context] in Hfresh; unfold fresh in Hfresh.
  - unfold apply, call_tx. rewrite init_done. unfold publish, store; cbn.
    rewrite supply_insert by exact Hfresh. reflexivity.
  - unfold apply, call_tx. rewrite create_content_done.
    unfold publish, store; cbn.
    rewrite supply_insert by exact Hfresh. reflexivity.
  - cbn [apply].
    destruct (purchase_tx_cases l c content_ref payment_ref clock)
      as [(content & payment & Hc & Hp & Hle & ->)|[-> _]]; [|reflexivity].
    cbn [snd objects].
    pose proof (Hkeyed _ _ Hp) as Hpid. cbn in Hpid. rewrite Hpid.
    rewrite supply_insert.
    + rewrite supply_insert by apply lookup_delete_eq.
      rewrite (supply_delete _ _ _ Hp). reflexivity.
    + rewrite lookup_insert_ne by congruence.
      rewrite lookup_delete_ne by congruence. exact Hfresh.
Qed.

(** ** Histories *)

(** X1. Along any history of module calls whose transactions get unused
    ids, the ledger stays consistent: every object sits under its own id,
    every receipt names a shared content item that is in the store and
    records that item's title and price, and every event in the log is
    backed by the object it names. *)
Theorem history_keeps_ledger_consistent l txs :
  consistent l -> fresh_run l txs -> consistent (run l txs).
Proof.
  revert l. induction txs as [|tx txs IH]; intros l Hl Hfresh; [exact Hl|].
  destruct Hfresh as [Hnow Hlater]. cbn [run].
  apply IH; [apply consistent_apply; assumption | exact Hlater].
Qed.

Lemma purse_consistent : consistent purse.
Proof.
  split; [|split].
  - intros k t H. unfold purse in H; cbn in H.
    repeat (apply lookup_insert_Some in H as [[<- <-]|[_ H]]; [reflexivity|]).
    rewrite lookup_empty in H. discriminate.
  - intros k o r H. unfold purse in H; cbn in H.
    repeat (apply lookup_insert_Some in H as [[_ H]|[_ H]];
            [discriminate H|]).
    rewrite lookup_empty in H. discriminate.
  - constructor.
Qed.

Lemma history_keeps_ledger_consistent_witness : consistent (run purse story).
Proof.
  apply (history_keeps_ledger_consistent purse story).
  - exact purse_consistent.
  - vm_compute. repeat split.
Defined.

(** X2. No history of module calls creates or destroys SUI: the values of
    all coins in the store add up to the same amount before and after. *)
Theorem history_conserves_supply l txs :
  consistent l -> fresh_run l txs ->
  total_supply (run l txs) = total_supply l.
Proof.
  revert l. induction txs as [|tx txs IH]; intros l Hl Hfresh; [reflexivity|].
  destruct Hfresh as [Hnow Hlater]. cbn [run].
  rewrite IH; [| apply consistent_apply; assumption | exact Hlater].
  apply supply_apply; [exact (proj1 Hl) | exact Hnow].
Qed.

Lemma history_conserves_supply_witness :
  total_supply (run purse story) = total_supply purse.
Proof.
  apply (history_conserves_supply purse story).
  - exact purse_consistent.
  - vm_compute. repeat split.
Defined.

(** X3. A transaction that does not succeed leaves the ledger exactly as it
    was, and the only abort there is comes from a purchase and carries
    [EInsufficientPayment]: [init] and [create_content] never abort, and
    nothing ever aborts with [EContentNotFound]. *)
Theorem failed_transaction_changes_nothing l tx :
  (apply l tx).1 <> Success ->
  (apply l tx).2 = l /\
  (exists c content_ref payment_ref clock,
     tx = Purchase c content_ref payment_ref clock) /\
  ((apply l tx).1 = InvalidInput \/
   (apply l tx).1 = MoveAbort EInsufficientPayment) /\
  (apply l tx).1 <> MoveAbort EContentNotFound.
Proof.
  destruct tx as [c|c t d p u|c content_ref payment_ref clock].
  - unfold apply, call_tx. rewrite init_done. cbn. congruence.
  - unfold apply, call_tx. rewrite create_content_done. cbn. congruence.
  - cbn [apply]. intros Hfail.
    destruct (purchase_tx_cases l c content_ref payment_ref clock)
      as [(content & payment & _ & _ & _ & H)|[Hsame Hstatus]].
    + rewrite H in Hfail. cbn in Hfail. congruence.
    + split; [exact Hsame|]. split; [eauto|]. split; [exact Hstatus|].
      destruct Hstatus as [-> | ->]; discriminate.
Qed.

Lemma failed_transaction_changes_nothing_witness :
  (apply genesis (Purchase buyer_ctx (1%N, 0%N) (2%N, 1%N) noon)).2 = genesis /\
  (exists c content_ref payment_ref clock,
     Purchase buyer_ctx (1%N, 0%N) (2%N, 1%N) noon
     = Purchase c content_ref payment_ref clock) /\
  ((apply genesis (Purchase buyer_ctx (1%N, 0%N) (2%N, 1%N) noon)).1
   = InvalidInput \/
   (apply genesis (Purchase buyer_ctx (1%N, 0%N) (2%N, 1%N) noon)).1
   = MoveAbort EInsufficientPayment) /\
  (apply genesis (Purchase buyer_ctx (1%N, 0%N) (2%N, 1%N) noon)).1
  <> MoveAbort EContentNotFound.
Proof.
  apply (failed_transaction_changes_nothing genesis
           (Purchase buyer_ctx (1%N, 0%N) (2%N, 1%N) noon)).
  vm_compute. discriminate.
Defined.

Example story_outcome :
  let l := run purse story in
  size (receipts_of l 11%N) = 2%nat /\
  balance l 12%N = 3000000000 /\
  balance l 11%N = 500000000 /\
  length (event_log l) = 3%nat.
Proof. vm_compute. repeat split. Qed.

(** ** Buying what was published, and buying it twice *)

Lemma apply_create l c title description price content_url :
  apply l (CreateContent c title description price content_url)
  = (Success,
     {| objects :=
          <[(tx_hash c, ids_created c) :=
              (Shared,
               OContent {| id := (tx_hash c, ids_created c); title := title;
                           description := description; price := price;
                           content_url := content_url;
                           creator := sender c |})]> (objects l);
        event_log := event_log l ++
          [ContentCreated (tx_hash c, ids_created c) title price
             (sender c)] |}).
Proof. reflexivity. Qed.

(** X4. What one address publishes another can buy: after [create_content]
    by a publisher, a purchase that names the new item's id and pays at
    least its price succeeds, hands the payment coin to the publisher, and
    gives the buyer a receipt for that id with the title and price the
    publisher set. *)
Theorem published_item_can_be_bought
    l publisher title description price content_url buyer payment clock :
  let item_id := (tx_hash publisher, ids_created publisher) in
  let receipt_id := (tx_hash buyer, ids_created buyer) in
  let created :=
    apply l (CreateContent publisher title description price content_url) in
  let bought :=
    apply created.2 (Purchase buyer item_id (coin_id payment) clock) in
  fresh l publisher ->
  fresh l buyer ->
  receipt_id <> item_id ->
  objects l !! coin_id payment
    = Some (AddressOwner (sender buyer), OCoin payment) ->
  price <= coin_value payment ->
  created.1 = Success /\
  bought.1 = Success /\
  objects bought.2 !! coin_id payment
    = Some (AddressOwner (sender publisher), OCoin payment) /\
  exists receipt,
    receipts_of bought.2 (sender buyer) !! receipt_id = Some receipt /\
    content_id receipt = item_id /\
    content_title receipt = title /\
    price_paid receipt = price /\
    purchaser receipt = sender buyer.
Proof.
  intros item_id receipt_id created bought Hpub Hbuy Hne Hcoin Hle.
  unfold fresh in Hpub, Hbuy. fold item_id in Hpub. fold receipt_id in Hbuy.
  subst created bought. rewrite apply_create. cbn [fst snd].
  fold item_id.
  set (item := {| id := item_id; title := title; description := description;
                  price := price; content_url := content_url;
                  creator := sender publisher |}).
  set (l1 := {| objects := <[item_id := (Shared, OContent item)]> (objects l);
                event_log := event_log l ++
                  [ContentCreated item_id title price (sender publisher)] |}).
  assert (Hitem : objects l1 !! id item = Some (Shared, OContent item))
    by apply lookup_insert_eq.
  assert (Hcoin1 : objects l1 !! coin_id payment
                   = Some (AddressOwner (sender buyer), OCoin payment)).
  { cbn. rewrite lookup_insert_ne by congruence. exact Hcoin. }
  assert (Hfresh1 : objects l1 !! receipt_id = None).
  { cbn. rewrite lookup_insert_ne by congruence. exact Hbuy. }
  cbn [apply]. change item_id with (id item) at 1 2 3.
  rewrite (purchase_tx_paid l1 buyer item payment clock Hitem Hcoin1 Hle).
  cbn [fst snd].
  split; [reflexivity|]. split; [reflexivity|].
  split; [apply purchased_lookup_coin; assumption|].
  exists (minted_receipt item clock buyer).
  split; [|repeat split].
  rewrite receipts_of_purchased by assumption.
  rewrite N.eqb_refl. apply lookup_insert_eq.
Qed.

Lemma published_item_can_be_bought_witness :
  let created :=
    apply purse (CreateContent publisher_ctx (title article)
                   (description article) (price article)
                   (content_url article)) in
  let bought :=
    apply created.2 (Purchase buyer_ctx (5%N, 0%N) (coin_id coin_double)
                       noon) in
  created.1 = Success /\
  bought.1 = Success /\
  objects bought.2 !! coin_id coin_double
    = Some (AddressOwner (sender publisher_ctx), OCoin coin_double) /\
  exists receipt,
    receipts_of bought.2 (sender buyer_ctx) !! (7%N, 0%N) = Some receipt /\
    content_id receipt = (5%N, 0%N) /\
    content_title receipt = title article /\
    price_paid receipt = price article /\
    purchaser receipt = sender buyer_ctx.
Proof.
  apply (published_item_can_be_bought purse publisher_ctx (title article)
           (description article) (price article) (content_url article)
           buyer_ctx coin_double noon);
    vm_compute; [reflexivity | reflexivity | discriminate | reflexivity
                 | discriminate].
Defined.

(** X5. Nothing stops a second purchase of the same item: a buyer who pays
    again, with another coin in another transaction, gets a second receipt
    for the same content id, and then owns both. *)
Theorem repeat_purchase_mints_second_receipt
    l first second content payment1 payment2 clock1 clock2 :
  let id1 := (tx_hash first, ids_created first) in
  let id2 := (tx_hash second, ids_created second) in
  let once := purchase_tx l first (id content) (coin_id payment1) clock1 in
  let twice :=
    purchase_tx once.2 second (id content) (coin_id payment2) clock2 in
  sender second = sender first ->
  objects l !! id content = Some (Shared, OContent content) ->
  objects l !! coin_id payment1
    = Some (AddressOwner (sender first), OCoin payment1) ->
  objects l !! coin_id payment2
    = Some (AddressOwner (sender first), OCoin payment2) ->
  coin_id payment1 <> coin_id payment2 ->
  fresh l first -> fresh l second -> id1 <> id2 ->
  price content <= coin_value payment1 ->
  price content <= coin_value payment2 ->
  once.1 = Success /\
  twice.1 = Success /\
  receipts_of twice.2 (sender first)
  = <[id2 := minted_receipt content clock2 second]>
      (<[id1 := minted_receipt content clock1 first]>
         (receipts_of l (sender first))) /\
  size (receipts_of twice.2 (sender first))
  = S (S (size (receipts_of l (sender first)))) /\
  content_id (minted_receipt content clock1 first)
  = content_id (minted_receipt content clock2 second).
Proof.
  intros id1 id2 once twice Hsame Hc Hp1 Hp2 Hpne Hf1 Hf2 Hidne Hle1 Hle2.
  unfold fresh in Hf1, Hf2. fold id1 in Hf1. fold id2 in Hf2.
  subst once twice.
  rewrite (purchase_tx_paid l first content payment1 clock1 Hc Hp1 Hle1).
  cbn [fst snd].
  set (l1 := purchased l first content payment1 clock1).
  assert (Hc1 : objects l1 !! id content = Some (Shared, OContent content)).
  { unfold l1.
    rewrite purchased_lookup_other;
      [exact Hc | congruence | fold id1; congruence]. }
  assert (Hp21 : objects l1 !! coin_id payment2
                 = Some (AddressOwner (sender second), OCoin payment2)).
  { unfold l1.
    rewrite purchased_lookup_other;
      [rewrite Hsame; exact Hp2 | congruence | fold id1; congruence]. }
  assert (Hf21 : objects l1 !! id2 = None).
  { unfold l1. rewrite purchased_lookup_other; [exact Hf2 | congruence |].
    fold id1. congruence. }
  rewrite (purchase_tx_paid l1 second content payment2 clock2 Hc1 Hp21 Hle2).
  cbn [fst snd].
  assert (Hr : receipts_of (purchased l1 second content payment2 clock2)
                 (sender first)
               = <[id2 := minted_receipt content clock2 second]>
                   (<[id1 := minted_receipt content clock1 first]>
                      (receipts_of l (sender first)))).
  { rewrite receipts_of_purchased by assumption.
    rewrite Hsame, N.eqb_refl. unfold l1.
    rewrite receipts_of_purchased by assumption.
    rewrite N.eqb_refl. reflexivity. }
  split; [reflexivity|]. split; [reflexivity|]. split; [exact Hr|].
  split; [|reflexivity].
  rewrite Hr.
  rewrite map_size_insert_None.
  - rewrite map_size_insert_None; [reflexivity|].
    unfold receipts_of. rewrite lookup_omap, Hf1. reflexivity.
  - rewrite lookup_insert_ne by exact Hidne.
    unfold receipts_of. rewrite lookup_omap, Hf2. reflexivity.
Qed.

Lemma repeat_purchase_mints_second_receipt_witness :
  let once :=
    purchase_tx genesis buyer_ctx (id article) (coin_id coin_exact) noon in
  let twice :=
    purchase_tx once.2 second_buyer_ctx (id article) (coin_id coin_double)
      noon in
  once.1 = Success /\
  twice.1 = Success /\
  receipts_of twice.2 (sender buyer_ctx)
  = <[(8%N, 0%N) := minted_receipt article noon second_buyer_ctx]>
      (<[(7%N, 0%N) := minted_receipt article noon buyer_ctx]>
         (receipts_of genesis (sender buyer_ctx))) /\
  size (receipts_of twice.2 (sender buyer_ctx))
  = S (S (size (receipts_of genesis (sender buyer_ctx)))) /\
  content_id (minted_receipt article noon buyer_ctx)
  = content_id (minted_receipt article noon second_buyer_ctx).
Proof.
  apply (repeat_purchase_mints_second_receipt genesis buyer_ctx
           second_buyer_ctx article coin_exact coin_double noon noon);
    vm_compute;
    [reflexivity | reflexivity | reflexivity | reflexivity | discriminate
     | reflexivity | reflexivity | discriminate | discriminate
     | discriminate].
Defined.

End HistoryFacts.

(* ===================================================================== *)
(** * Properties of the payment flow                                     *)
(* ===================================================================== *)

Section FlowFacts.
Import Sdk Flows SdkSamples FlowSamples.

(** What [generateX402Response] does, by what [tx.build] answers. *)
Lemma generateX402Response_cases this content buyerAddress w :
  let tx :=
    {| commands :=
         [SplitCoins GasCoin [Pure (price content)];
          MoveCall
            (packageId this ++ "::" ++ moduleName this
               ++ "::purchase_and_grant_access")
            [Object (id content); NestedResult 0 0; Object "0x6"]];
       sender := Some buyerAddress;
       gasOwner := toSuiAddress <$> sponsorKeypair this |} in
  generateX402Response this content buyerAddress w
  = match build (client this) tx with
    | Returned bytes =>
        (Returned
           {| statusCode := 402;
              message := "Payment Required";
              paymentRequired :=
                {| amount := price content;
                   recipient := creator content;
                   transactionBytes := base64_encode bytes;
                   description :=
                     ("Purchase access to: " ++ title content)%string |} |},
         {| now := now w; trace := trace w ++ [Built tx] |})
    | Thrown e =>
        (Thrown e, {| now := now w; trace := trace w ++ [Built tx] |})
    end.
Proof.
  intros tx. unfold generateX402Response, bind.
  rewrite buildPurchaseTransaction_envelope.
  unfold await_build, bind, log, lift. cbn. fold tx.
  destruct (build (client this) tx); reflexivity.
Qed.

(** X6. What the server generates the client parses: [parseX402Response]
    never rejects the status code of a response [generateX402Response]
    returned; it hands back that response's payment part, and rejects the
    response, as missing its transaction bytes, only when the envelope
    serialised to nothing. *)
Theorem generated_response_parses this content buyerAddress w response w' :
  generateX402Response this content buyerAddress w = (Returned response, w') ->
  parseX402Response response
  = match transactionBytes (paymentRequired response) with
    | EmptyString =>
        Thrown (Error "Invalid x402 response: missing transaction bytes")
    | _ => Returned (paymentRequired response)
    end /\
  (base64_decode (transactionBytes (paymentRequired response)) <> [] ->
   parseX402Response response = Returned (paymentRequired response)).
Proof.
  rewrite generateX402Response_cases.
  destruct (build (client this) _) as [bytes|e]; [|discriminate].
  intros H. injection H as <- <-. unfold parseX402Response. cbn.
  split; [reflexivity|].
  destruct (base64_encode bytes); [intros Hne; destruct Hne|]; reflexivity.
Qed.

Lemma generated_response_parses_witness :
  match generateX402Response sponsored_server item_a "0xb0b" dawn with
  | (Returned response, _) =>
      parseX402Response response = Returned (paymentRequired response)
  | (Thrown _, _) => False
  end.
Proof.
  destruct (generateX402Response sponsored_server item_a "0xb0b" dawn)
    as [[response|e] w'] eqn:E.
  - apply (generated_response_parses sponsored_server item_a "0xb0b" dawn
             response w' E).
    vm_compute in E. injection E as <- <-. vm_compute. discriminate.
  - vm_compute in E. discriminate E.
Defined.

(** What [sponsorAndExecute] does on a server that has a sponsor. *)
Lemma sponsorAndExecute_as_given
    this keypair transactionBytes clientSignature clientPublicKey w :
  sponsorKeypair this = Some keypair ->
  sponsorAndExecute this transactionBytes clientSignature clientPublicKey w
  = match executeTransactionBlock (client this)
            (base64_decode transactionBytes)
            [clientSignature;
             signTransaction keypair (base64_decode transactionBytes)] with
    | Returned result =>
        (Returned
           {| result_digest := digest result;
              result_status :=
                match status_of result with
                | Some "success" => success
                | _ => failure
                end;
              result_effects := effects result |},
         {| now := now w;
            trace := trace w ++
              [Signed (toSuiAddress keypair) (base64_decode transactionBytes);
               Executed (base64_decode transactionBytes)
                 [clientSignature;
                  signTransaction keypair
                    (base64_decode transactionBytes)]] |})
    | Thrown e =>
        (Thrown e,
         {| now := now w;
            trace := trace w ++
              [Signed (toSuiAddress keypair) (base64_decode transactionBytes);
               Executed (base64_decode transactionBytes)
                 [clientSignature;
                  signTransaction keypair
                    (base64_decode transactionBytes)];
               ConsoleError "Transaction execution failed:" e] |})
    end.
Proof.
  intros Hsome. unfold sponsorAndExecute. rewrite Hsome.
  unfold try_catch, bind, await_signTransaction,
    await_executeTransactionBlock, bind, log, lift, ret, console_error,
    throw, log.
  cbn.
  destruct (executeTransactionBlock (client this)
              (base64_decode transactionBytes)
              [clientSignature;
               signTransaction keypair (base64_decode transactionBytes)])
    as [result|e]; cbn; rewrite <- !app_assoc; reflexivity.
Qed.

Lemma signWithWallet_cases transactionBytes wallet w :
  signWithWallet transactionBytes wallet w
  = match wallet_signTransaction wallet (base64_decode transactionBytes) with
    | Returned signed =>
        (Returned {| signed_transactionBytes := transactionBytes;
                     signature := signed.1;
                     publicKey := signed.2 |},
         {| now := now w;
            trace := trace w ++
              [Signed (address wallet) (base64_decode transactionBytes)] |})
    | Thrown e =>
        (Thrown e,
         {| now := now w;
            trace := trace w ++
              [Signed (address wallet) (base64_decode transactionBytes)] |})
    end.
Proof.
  unfold signWithWallet, bind, log, lift, ret. cbn.
  destruct (wallet_signTransaction wallet (base64_decode transactionBytes));
    reflexivity.
Qed.

(** X7. The envelope is signed as built.  When the response of
    [generateX402Response] is signed with a wallet and handed to
    [sponsorAndExecute], the wallet and the sponsor are asked to sign the
    very bytes [tx.build] produced, and those bytes go to the node with the
    wallet's signature first and the sponsor's second.  When the wallet
    declines, its error is the outcome: the sponsor signs nothing and
    nothing reaches the node. *)
Theorem envelope_is_signed_as_built
    this keypair content buyerAddress wallet w tx bytes :
  let flow :=
    (response <- generateX402Response this content buyerAddress ;;
     signed <- signWithWallet
                 (transactionBytes (paymentRequired response)) wallet ;;
     sponsorAndExecute this (signed_transactionBytes signed)
       (signature signed) (publicKey signed)) in
  sponsorKeypair this = Some keypair ->
  buildPurchaseTransaction this
    {| contentObjectId := id content; params_price := price content;
       params_creator := creator content; buyerAddress := buyerAddress;
       clockObjectId := None |} w = (Returned tx, w) ->
  build (client this) tx = Returned bytes ->
  (forall sig key,
     wallet_signTransaction wallet bytes = Returned (sig, key) ->
     exists tail,
       trace (flow w).2
       = trace w ++
           [Built tx;
            Signed (address wallet) bytes;
            Signed (toSuiAddress keypair) bytes;
            Executed bytes [sig; signTransaction keypair bytes]] ++ tail /\
       signings tail = [])
  /\
  (forall e,
     wallet_signTransaction wallet bytes = Thrown e ->
     (flow w).1 = Thrown e /\
     trace (flow w).2
     = trace w ++ [Built tx; Signed (address wallet) bytes]).
Proof.
  intros flow Hsponsor Htx Hbuild.
  assert (Hgen : generateX402Response this content buyerAddress w
                 = (Returned
                      {| statusCode := 402;
                         message := "Payment Required";
                         paymentRequired :=
                           {| amount := price content;
                              recipient := creator content;
                              transactionBytes := base64_encode bytes;
                              description :=
                                ("Purchase access to: "
                                   ++ title content)%string |} |},
                    {| now := now w; trace := trace w ++ [Built tx] |})).
  { rewrite generateX402Response_cases.
    rewrite buildPurchaseTransaction_envelope in Htx.
    injection Htx as <-. rewrite Hbuild. reflexivity. }
  subst flow. unfold bind. rewrite Hgen.
  cbn [paymentRequired transactionBytes].
  rewrite signWithWallet_cases, base64_roundtrip.
  split.
  - intros sig key Hsign. rewrite Hsign.
    cbn [signed_transactionBytes signature publicKey fst snd].
    rewrite (sponsorAndExecute_as_given this keypair _ sig key _ Hsponsor).
    rewrite base64_roundtrip. cbn [now trace].
    destruct (executeTransactionBlock (client this) bytes
                [sig; signTransaction keypair bytes]) as [result|e];
      cbn [snd trace].
    + exists []. rewrite <- !app_assoc. split; reflexivity.
    + exists [ConsoleError "Transaction execution failed:" e].
      rewrite <- !app_assoc. split; reflexivity.
  - intros e Hsign. rewrite Hsign. cbn. rewrite <- app_assoc.
    split; reflexivity.
Qed.

Lemma envelope_is_signed_as_built_witness :
  exists tail,
    trace
      ((response <- generateX402Response sponsored_server item_a "0xb0b" ;;
        signed <- signWithWallet
                    (transactionBytes (paymentRequired response))
                    buyer_wallet ;;
        sponsorAndExecute sponsored_server (signed_transactionBytes signed)
          (signature signed) (publicKey signed)) dawn).2
    = trace dawn ++
        [Built envelope_a;
         Signed "0xb0b" (serialize envelope_a);
         Signed "0x5" (serialize envelope_a);
         Executed (serialize envelope_a)
           [("buyer:" ++ base64_encode (serialize envelope_a))%string;
            signTransaction sponsor (serialize envelope_a)]] ++ tail /\
    signings tail = [].
Proof.
  apply (proj1 (envelope_is_signed_as_built sponsored_server sponsor item_a
                  "0xb0b" buyer_wallet dawn envelope_a (serialize envelope_a)
                  eq_refl eq_refl eq_refl)
           _ "buyer-key").
  reflexivity.
Defined.

(** X8. The envelope binds the content id, the price and the buyer, and
    nothing else of the item: two descriptions of an item that agree on id
    and price give the same transaction bytes, whatever title, description,
    URL or creator they carry.  The recipient shown in the response is not
    part of what gets signed. *)
Theorem envelope_ignores_labels this content content' buyerAddress w :
  id content = id content' ->
  price content = price content' ->
  match (generateX402Response this content buyerAddress w).1,
        (generateX402Response this content' buyerAddress w).1 with
  | Returned response, Returned response' =>
      transactionBytes (paymentRequired response)
      = transactionBytes (paymentRequired response')
  | Thrown e, Thrown e' => e = e'
  | _, _ => False
  end.
Proof.
  intros Hid Hprice. rewrite !generateX402Response_cases.
  rewrite <- Hid, <- Hprice.
  destruct (build (client this) _); reflexivity.
Qed.

Lemma envelope_ignores_labels_witness :
  creator item_a <> creator item_a_relabelled /\
  match (generateX402Response sponsored_server item_a "0xb0b" dawn).1,
        (generateX402Response sponsored_server item_a_relabelled "0xb0b"
           dawn).1 with
  | Returned response, Returned response' =>
      transactionBytes (paymentRequired response)
      = transactionBytes (paymentRequired response')
  | Thrown e, Thrown e' => e = e'
  | _, _ => False
  end.
Proof.
  split; [discriminate|].
  apply (envelope_ignores_labels sponsored_server item_a item_a_relabelled
           "0xb0b" dawn); reflexivity.
Defined.

(** ** The automated client *)

(** X9. [handleX402Flow] signs only what a payment-required answer asks it
    to sign.  Either it fails and has signed nothing, or the server answered
    its content request with status 402 and a body of status code 402 with
    non-empty transaction bytes; then the key pair signed exactly the
    decoding of those bytes, once, and a digest it returns is the digest in
    the server's successful answer to the execute request that carried
    those same bytes, that signature and the key pair's public key. *)
Theorem handleX402Flow_signs_only_what_was_asked
    (publicKey_toBase64 : Ed25519Keypair -> string) (fetch : Fetch)
    serverUrl contentId keypair w :
  let run :=
    handleX402Flow publicKey_toBase64 fetch serverUrl contentId keypair w in
  ((exists e, run.1 = Thrown e) /\ run.2 = w)
  \/
  (exists response payment,
     fetch_get fetch (serverUrl ++ "/content/" ++ contentId)
     = Returned response /\
     response_status response = 402 /\
     json response = Returned payment /\
     statusCode payment = 402 /\
     transactionBytes (paymentRequired payment) <> EmptyString /\
     let txBytes :=
       base64_decode (transactionBytes (paymentRequired payment)) in
     let signedTx :=
       {| signed_transactionBytes :=
            transactionBytes (paymentRequired payment);
          signature := signTransaction keypair txBytes;
          publicKey := publicKey_toBase64 keypair |} in
     run.2 = {| now := now w;
                trace := trace w ++
                  [Signed (toSuiAddress keypair) txBytes] |} /\
     forall d,
       run.1 = Returned d ->
       exists answer body,
         fetch_post fetch
           (serverUrl ++ "/content/" ++ contentId ++ "/execute") signedTx
         = Returned answer /\
         ok answer = true /\
         json answer = Returned body /\
         body_digest body = d).
Proof.
  intros run. subst run.
  unfold handleX402Flow, requestContent, bind, lift.
  destruct (fetch_get fetch (serverUrl ++ "/content/" ++ contentId))
    as [response|e] eqn:Eget; [|left; split; [eauto | reflexivity]].
  destruct (response_status response =? 402) eqn:E402.
  2:{ left. destruct (negb (ok response)); cbn; split; eauto. }
  apply Z.eqb_eq in E402.
  destruct (json response) as [payment|e] eqn:Ejson;
    [|left; split; [eauto | reflexivity]].
  unfold parseX402Response.
  destruct (statusCode payment =? 402) eqn:Ecode;
    [|left; cbn; split; [eauto | reflexivity]].
  apply Z.eqb_eq in Ecode. cbn [negb].
  destruct (transactionBytes (paymentRequired payment)) as [|c rest] eqn:Eb;
    [left; split; [eauto | reflexivity]|].
  right. exists response, payment.
  rewrite Eb.
  split; [first [reflexivity | assumption]|].
  split; [exact E402|].
  split; [first [reflexivity | assumption]|].
  split; [exact Ecode|]. split; [discriminate|].
  unfold signWithKeypair, submitSignedTransaction, await_signTransaction,
    bind, log, lift, ret, throw. cbn.
  destruct (fetch_post fetch _ _) as [answer|e] eqn:Epost; cbn.
  2:{ split; [reflexivity | discriminate]. }
  destruct (ok answer) eqn:Eok; cbn.
  - destruct (json answer) as [body|e] eqn:Ebody; cbn.
    + split; [reflexivity|]. intros d [= <-]. exists answer, body. auto.
    + split; [reflexivity | discriminate].
  - destruct (json answer) as [body|e]; cbn;
      (split; [reflexivity | discriminate]).
Qed.

(** The flow against the sample shop. *)
Example handleX402Flow_buys :
  (handleX402Flow buyer_key shop "https://shop" "0xa" buyer dawn).1
  = Returned "D1".
Proof. vm_compute. reflexivity. Qed.

Example handleX402Flow_has_access_already :
  handleX402Flow buyer_key shop "https://shop" "0xfree" buyer dawn
  = (Thrown (Error "User already has access to this content"), dawn).
Proof. vm_compute. reflexivity. Qed.

Example handleX402Flow_not_found :
  handleX402Flow buyer_key shop "https://shop" "0xnone" buyer dawn
  = (Thrown (Error "Failed to request content: Not Found"), dawn).
Proof. vm_compute. reflexivity. Qed.

End FlowFacts.

Section PublishingFacts.
Import Sdk Flows SdkSamples FlowSamples.

Variable utf8 : list JsValue -> string.
Variable signAndExecuteTransaction :
  SuiClient -> Transaction -> Ed25519Keypair ->
  Outcome (option (list OwnedObjectRef)).
Variable getObject : SuiClient -> string -> Outcome SuiObjectResponse.
Variable pure_u64 : string -> Outcome Argument.

Lemma find_first {A} (f : A -> bool) (l : list A) (x : A) :
  List.find f l = Some x ->
  exists before after,
    l = before ++ x :: after /\ f x = true /\
    forallb (fun y => negb (f y)) before = true.
Proof.
  induction l as [|y l IH]; [discriminate|]. cbn.
  destruct (f y) eqn:Ey.
  - intros [= <-]. exists [], l. auto.
  - intros H. destruct (IH H) as (before & after & -> & Hx & Hb).
    exists (y :: before), after. cbn. rewrite Ey. auto.
Qed.

Lemma find_nothing {A} (f : A -> bool) (l : list A) :
  List.find f l = None <-> forallb (fun y => negb (f y)) l = true.
Proof.
  induction l as [|y l IH]; [split; reflexivity|]. cbn.
  destruct (f y); cbn; [split; discriminate | exact IH].
Qed.

(** X10. [createContent] first has the price made into a number of 64
    bits: when [tx.pure.u64] throws, that error is the caller's, whatever
    the node would have answered.  Otherwise it sends one call of
    [create_content] with the title, the description, the price and the
    address of the content, in the creator's name and without a gas owner
    even on a server that has a sponsor.  It returns the id of the first
    object the node reports as created with a shared owner, and throws
    "Failed to create content object" exactly when the node reports none,
    as when it reports no effects at all; an error of the node is passed
    on.  It leaves no trace of its own. *)
Theorem createContent_returns_first_shared
    this title description price contentUrl creatorKeypair w :
  let run :=
    createContent pure_u64 signAndExecuteTransaction this title description
      price contentUrl creatorKeypair w in
  run.2 = w /\
  match pure_u64 price with
  | Thrown e => run.1 = Thrown e
  | Returned priceArgument =>
      let tx :=
        {| commands :=
             [MoveCall
                (packageId this ++ "::" ++ moduleName this
                   ++ "::create_content")%string
                [Pure title; Pure description; priceArgument;
                 Pure contentUrl]];
           sender := Some (toSuiAddress creatorKeypair);
           gasOwner := None |} in
      match signAndExecuteTransaction (client this) tx creatorKeypair with
      | Thrown e => run.1 = Thrown e
      | Returned created =>
          let objects := default [] created in
          (forall contentId,
             run.1 = Returned contentId ->
             exists before contentObject after,
               objects = before ++ contentObject :: after /\
               is_shared contentObject = true /\
               forallb (fun obj => negb (is_shared obj)) before = true /\
               reference_objectId contentObject = contentId) /\
          (run.1 = Thrown (Error "Failed to create content object") <->
           forallb (fun obj => negb (is_shared obj)) objects = true) /\
          (forall e,
             run.1 = Thrown e ->
             e = Error "Failed to create content object")
      end
  end.
Proof.
  intros run. subst run.
  unfold createContent, bind, lift.
  destruct (pure_u64 price) as [priceArgument|e]; [|split; reflexivity].
  unfold setSender, moveCall, add, new_Transaction. cbn.
  set (tx := {| commands := _; sender := _; gasOwner := _ |}).
  destruct (signAndExecuteTransaction (client this) tx creatorKeypair)
    as [created|e]; [|split; reflexivity].
  set (objects := default [] created).
  replace (match created with Some objects0 => objects0 | None => [] end)
    with objects by (destruct created; reflexivity).
  destruct (List.find is_shared objects) as [contentObject|] eqn:Efind; cbn.
  - split; [reflexivity|]. split; [|split].
    + intros contentId [= <-].
      destruct (find_first _ _ _ Efind) as (before & after & ? & ? & ?).
      exists before, contentObject, after. auto.
    + split; [discriminate|].
      intros Hnone. apply find_nothing in Hnone. congruence.
    + discriminate.
  - split; [reflexivity|]. split; [|split].
    + discriminate.
    + split; [intros _; apply find_nothing; exact Efind | reflexivity].
    + intros e [= <-]. reflexivity.
Qed.

(** X11. [getContentDetails] never throws.  When the node cannot be asked
    it logs the error and answers null; it answers null as well for an
    object without data or without Move content.  What it does return
    carries the id that was asked for, and the price and the creator just
    as the node gave them. *)
Theorem getContentDetails_never_throws this contentObjectId w :
  let run := getContentDetails utf8 getObject this contentObjectId w in
  (exists answer, run.1 = Returned answer) /\
  (forall e,
     getObject (client this) contentObjectId = Thrown e ->
     run = (Returned None,
            {| now := now w;
               trace := trace w ++
                 [ConsoleError "Failed to fetch content:" e] |})) /\
  (forall obj,
     getObject (client this) contentObjectId = Returned obj ->
     has_move_content obj = false ->
     run = (Returned None, w)) /\
  (forall details,
     run.1 = Returned (Some details) ->
     details_id details = contentObjectId /\
     run.2 = w /\
     exists obj d fields,
       getObject (client this) contentObjectId = Returned obj /\
       data obj = Some d /\
       content d = Some (moveObject fields) /\
       get fields "price" = Returned (details_price details) /\
       get fields "creator" = Returned (details_creator details)).
Proof.
  intros run. subst run.
  unfold getContentDetails, try_catch, bind, lift, ret, console_error, log,
    has_move_content.
  destruct (getObject (client this) contentObjectId) as [obj|e] eqn:Eobj.
  2:{ cbn. split; [eauto|]. split; [intros e' [= <-]; reflexivity|].
      split; [discriminate | discriminate]. }
  destruct (data obj) as [d|] eqn:Ed.
  2:{ cbn. split; [eauto|]. split; [discriminate|].
      split; [reflexivity | discriminate]. }
  destruct (content d) as [[fields|]|] eqn:Ec.
  2,3: cbn; (split; [eauto|]); (split; [discriminate|]);
       (split; [reflexivity | discriminate]).
  assert (Hget : (forall key, get fields key = Thrown
                    (TypeError "Cannot read properties of undefined")) \/
                 (forall key, exists v, get fields key = Returned v)).
  { destruct fields; cbn; eauto. }
  destruct Hget as [Hthrow|Hok].
  - rewrite !Hthrow. cbn.
    split; [eauto|]. split; [discriminate|].
    split; [intros ? [= <-]; rewrite Ed, Ec; discriminate | discriminate].
  - destruct (Hok "title") as (v1 & ->), (Hok "description") as (v2 & ->),
      (Hok "price") as (v3 & E3), (Hok "content_url") as (v4 & ->),
      (Hok "creator") as (v5 & E5).
    rewrite E3, E5. cbn.
    split; [eauto|]. split; [discriminate|].
    split; [intros ? [= <-]; rewrite Ed, Ec; discriminate|].
    intros details [= <-]. cbn. split; [reflexivity|]. split; [reflexivity|].
    exists obj, d, fields. auto.
Qed.

End PublishingFacts.

Section ListingFacts.
Import Sdk Flows SdkSamples FlowSamples.

Variable utf8 : list JsValue -> string.

Lemma getAccessReceipts_answer this userAddress w :
  (getAccessReceipts utf8 this userAddress w).1
  = match getOwnedObjects (client_client this) userAddress
            (client_packageId this ++ "::" ++ client_moduleName this
               ++ "::AccessReceipt")
    with
    | Returned objects =>
        match map_each (to_receipt utf8)
                (List.filter has_move_content objects) with
        | Returned receipts => Returned receipts
        | Thrown _ => Returned []
        end
    | Thrown _ => Returned []
    end.
Proof.
  unfold getAccessReceipts, try_catch, bind, await_getOwnedObjects, bind,
    log, lift. cbn.
  destruct (getOwnedObjects (client_client this) userAddress _)
    as [objects|e]; [|reflexivity].
  destruct (map_each (to_receipt utf8)
              (List.filter has_move_content objects)); reflexivity.
Qed.

(** X12. The access checks never throw.  Whatever the node answers, and
    whatever the objects it returns look like, [hasAccess] and
    [checkAccess] return a boolean and [getAccessReceipts] returns a list:
    errors of the query and of reading the objects are caught. *)
Theorem access_checks_never_throw
    (server : X402Server) (reader : X402Client) address contentId w :
  (exists b, (hasAccess server address contentId w).1 = Returned b) /\
  (exists b, (checkAccess utf8 reader address contentId w).1 = Returned b) /\
  (exists receipts,
     (getAccessReceipts utf8 reader address w).1 = Returned receipts).
Proof.
  split; [|split].
  - unfold hasAccess, try_catch, bind, await_getOwnedObjects, bind, log,
      lift. cbn.
    destruct (getOwnedObjects (client server) address _) as [objects|e];
      [|cbn; eauto].
    destruct (some (receipt_matches contentId) objects); cbn; eauto.
  - unfold checkAccess, getAccessReceipts, try_catch, bind,
      await_getOwnedObjects, bind, log, lift. cbn.
    destruct (getOwnedObjects (client_client reader) address _)
      as [objects|e]; [|cbn; eauto].
    destruct (map_each (to_receipt utf8)
                (List.filter has_move_content objects)); cbn; eauto.
  - rewrite getAccessReceipts_answer.
    destruct (getOwnedObjects (client_client reader) address _)
      as [objects|e]; [|eauto].
    destruct (map_each (to_receipt utf8)
                (List.filter has_move_content objects)); eauto.
Qed.

Lemma to_receipt_keys objects :
  forallb receipt_shaped objects = true ->
  exists receipts,
    map_each (to_receipt utf8) (List.filter has_move_content objects)
    = Returned receipts /\
    map (fun receipt => (receipt_id receipt, Sdk.contentId receipt)) receipts
    = receipt_keys objects.
Proof.
  induction objects as [|obj objects IH].
  - exists []. split; reflexivity.
  - cbn [forallb]. intros H.
    apply andb_prop in H. destruct H as [Hobj Hrest].
    destruct (IH Hrest) as (receipts & Hmap & Hkeys).
    destruct obj as [[[oid [[fields|]|]]|]];
      try (exists receipts; split; [exact Hmap | exact Hkeys]).
    destruct fields; try discriminate.
    unfold receipt_shaped in Hobj; cbn in Hobj.
    destruct (lookup_prop "content_id" props) as [| | | |s| |] eqn:El;
      try discriminate.
    eexists (_ :: receipts). split.
    + cbn [List.filter has_move_content data content].
      cbn [map_each]. rewrite Hmap.
      unfold to_receipt; cbn. rewrite El. reflexivity.
    + cbn [map receipt_keys data content objectId]. rewrite El, Hkeys.
      reflexivity.
Qed.

(** X13. For owned objects rendered as receipts, [getAccessReceipts] lists
    one receipt per object that carries Move content, in the node's order,
    each with the object's id and the content id of its fields; when the
    query fails it returns the empty list and logs the error. *)
Theorem getAccessReceipts_lists_owned_receipts
    (reader : X402Client) userAddress w :
  let structType :=
    (client_packageId reader ++ "::" ++ client_moduleName reader
       ++ "::AccessReceipt")%string in
  let run := getAccessReceipts utf8 reader userAddress w in
  (forall objects,
     getOwnedObjects (client_client reader) userAddress structType
     = Returned objects ->
     forallb receipt_shaped objects = true ->
     exists receipts,
       run.1 = Returned receipts /\
       map (fun receipt => (receipt_id receipt, Sdk.contentId receipt))
         receipts
       = receipt_keys objects /\
       length receipts = length (List.filter has_move_content objects))
  /\
  (forall e,
     getOwnedObjects (client_client reader) userAddress structType
     = Thrown e ->
     run = (Returned [],
            {| now := now w;
               trace := trace w ++
                 [QueriedOwnedObjects userAddress structType;
                  ConsoleError "Failed to fetch access receipts:" e] |})).
Proof.
  intros structType run. subst run. split.
  - intros objects Hq Hshape. rewrite getAccessReceipts_answer.
    fold structType. rewrite Hq.
    destruct (to_receipt_keys objects Hshape) as (receipts & Hmap & Hkeys).
    rewrite Hmap. exists receipts. split; [reflexivity|].
    split; [exact Hkeys|].
    clear Hkeys Hq. revert receipts Hmap.
    induction (List.filter has_move_content objects) as [|obj l IH];
      intros receipts Hmap; cbn in Hmap.
    + injection Hmap as <-. reflexivity.
    + destruct (to_receipt utf8 obj); [|discriminate].
      destruct (map_each (to_receipt utf8) l) as [rs|]; [|discriminate].
      injection Hmap as <-. cbn. rewrite (IH rs eq_refl). reflexivity.
  - intros e Hq.
    unfold getAccessReceipts, try_catch, bind, await_getOwnedObjects, bind,
      log, lift, console_error, log, ret. cbn. fold structType.
    rewrite Hq. cbn. rewrite <- app_assoc. reflexivity.
Qed.

End ListingFacts.

Section SettlingFacts.
Import Sdk Flows SdkSamples FlowSamples.

Lemma poll_once_late_clock late client digest w :
  let turn := Timers.poll_once_late late client digest w in
  let latency := Z.of_N (getTransactionBlock client digest (now w)).1 in
  now w <= now turn.2 /\
  now turn.2
  <= now w + latency + 1000 + Z.of_N (late (now w + latency)) /\
  (forall b,
     turn.1 = Returned (Some b) -> now turn.2 = now w + latency).
Proof.
  unfold Timers.poll_once_late, bind, try_catch, await_getTransactionBlock,
    Timers.sleep_late, ret.
  destruct (getTransactionBlock client digest (now w)) as [latency answer].
  cbn. destruct answer as [result|e]; cbn.
  - destruct (verdict result); cbn; repeat split; try lia; discriminate.
  - repeat split; try lia; discriminate.
Qed.

Lemma poll_once_late_returns late client digest w w' e :
  Timers.poll_once_late late client digest w <> (Thrown e, w').
Proof.
  unfold Timers.poll_once_late, bind, try_catch, await_getTransactionBlock,
    Timers.sleep_late, ret.
  destruct (getTransactionBlock client digest (now w)) as [latency answer].
  cbn. destruct answer as [result|e']; cbn.
  - destruct (verdict result); cbn; discriminate.
  - discriminate.
Qed.

Lemma poll_late_settles late client digest startTime timeoutMs w
    (most lateness : N) :
  (forall t, ((getTransactionBlock client digest t).1 <= most)%N) ->
  (forall t, (late t <= lateness)%N) ->
  let settled := Timers.poll_late late client digest startTime timeoutMs w in
  now w <= now settled.2 /\
  now settled.2 - startTime
  <= Z.max (now w - startTime)
       (timeoutMs + Z.of_N most + 1000 + Z.of_N lateness).
Proof.
  intros Hmost Hlate. cbn zeta.
  funelim (Timers.poll_late late client digest startTime timeoutMs w).
  - cbn. lia.
  - match goal with
    | E : Timers.poll_once_late ?l ?c ?d w = _ |- _ =>
        pose proof (poll_once_late_clock l c d w) as (H1 & H2 & H3);
        rewrite E in H1, H2, H3; cbn in H1, H2, H3;
        specialize (H3 _ eq_refl); pose proof (Hmost (now w))
    end.
    cbn. lia.
  - match goal with
    | E : Timers.poll_once_late ?l ?c ?d w = _ |- _ =>
        pose proof (poll_once_late_clock l c d w) as (H1 & H2 & _);
        rewrite E in H1, H2; cbn in H1, H2; pose proof (Hmost (now w));
        pose proof
          (Hlate (now w + Z.of_N (getTransactionBlock c d (now w)).1))
    end.
    match goal with
    | IH : forall most : N, _ |- _ =>
        destruct (IH _ _ Hmost Hlate) as [IH1 IH2]
    end.
    lia.
  - match goal with
    | E : Timers.poll_once_late ?l ?c ?d w = _ |- _ =>
        destruct (poll_once_late_returns l c d w _ _ E)
    end.
Qed.

(** With timers that fire on the dot this is the loop of [Sdk]. *)
Lemma poll_once_late_on_time client digest w :
  Timers.poll_once_late (fun _ => 0%N) client digest w
  = poll_once client digest w.
Proof.
  unfold Timers.poll_once_late, poll_once, bind, try_catch,
    await_getTransactionBlock, Timers.sleep_late, sleep, ret.
  destruct (getTransactionBlock client digest (now w)) as [latency answer].
  cbn. destruct answer as [result|e]; cbn.
  - destruct (verdict result); cbn; [reflexivity|].
    rewrite Z.add_0_r. reflexivity.
  - rewrite Z.add_0_r. reflexivity.
Qed.

Lemma poll_late_unfold late client digest startTime timeoutMs w :
  Timers.poll_late late client digest startTime timeoutMs w
  = match Z_lt_dec (now w - startTime) timeoutMs with
    | right _ => throw (Error "Transaction confirmation timeout") w
    | left _ =>
        match Timers.poll_once_late late client digest w with
        | (Returned (Some b), w') => (Returned b, w')
        | (Returned None, w') =>
            Timers.poll_late late client digest startTime timeoutMs w'
        | (Thrown e, w') => (Thrown e, w')
        end
    end.
Proof.
  funelim (Timers.poll_late late client digest startTime timeoutMs w);
    match goal with
    | Heq : Z_lt_dec _ _ = _ |- _ => rewrite Heq
    end;
    try match goal with
    | E : Timers.poll_once_late _ _ _ _ = _ |- _ => rewrite E
    end;
    reflexivity.
Qed.

Lemma poll_late_on_time client digest startTime timeoutMs w :
  Timers.poll_late (fun _ => 0%N) client digest startTime timeoutMs w
  = poll client digest startTime timeoutMs w.
Proof.
  funelim (poll client digest startTime timeoutMs w);
    rewrite poll_late_unfold, poll_once_late_on_time;
    match goal with
    | Heq : Z_lt_dec _ _ = _ |- _ => rewrite Heq
    end;
    try match goal with
    | E : poll_once _ _ _ = _ |- _ => rewrite E
    end;
    try reflexivity.
  assumption.
Qed.

Lemma waitForTransaction_late_on_time this digest timeoutMs w :
  Timers.waitForTransaction_late (fun _ => 0%N) this digest timeoutMs w
  = waitForTransaction this digest timeoutMs w.
Proof.
  unfold Timers.waitForTransaction_late, waitForTransaction.
  apply poll_late_on_time.
Qed.

(** X14. With no time allowed, [waitForTransaction] asks nothing: for a
    timeout of zero or less it throws "Transaction confirmation timeout" at
    once, without a single request to the node, whatever has become of the
    transaction. *)
Theorem waitForTransaction_without_time this digest timeoutMs w :
  timeoutMs <= 0 ->
  waitForTransaction this digest (Some timeoutMs) w
  = (Thrown (Error "Transaction confirmation timeout"), w).
Proof.
  intros Hle. unfold waitForTransaction. simp poll.
  destruct (Z_lt_dec (now w - now w) timeoutMs) as [Hlt|Hge]; [lia|].
  reflexivity.
Qed.

Lemma waitForTransaction_without_time_witness :
  answer_verdict node "D2" 0 = Some false /\
  waitForTransaction reader "D2" (Some 0) dawn
  = (Thrown (Error "Transaction confirmation timeout"), dawn).
Proof.
  split; [reflexivity|].
  apply (waitForTransaction_without_time reader "D2" 0 dawn). lia.
Defined.

(** X15. The wait is bounded in time as well.  When the node answers every
    request for the digest within [most] milliseconds and no timer fires
    more than [lateness] milliseconds late, [waitForTransaction] settles no
    later than the timeout, one answer, one pause and one lateness after it
    was called, and the clock never runs backwards. *)
Theorem waitForTransaction_settles_in_time
    late this digest timeoutMs w (most lateness : N) :
  let limit := match timeoutMs with Some t => t | None => 30000 end in
  let run := Timers.waitForTransaction_late late this digest timeoutMs w in
  (forall t,
     ((getTransactionBlock (client_client this) digest t).1 <= most)%N) ->
  (forall t, (late t <= lateness)%N) ->
  now w <= now run.2 /\
  now run.2 - now w
  <= Z.max 0 (limit + Z.of_N most + 1000 + Z.of_N lateness).
Proof.
  intros limit run Hmost Hlate. subst run.
  unfold Timers.waitForTransaction_late. fold limit.
  destruct (poll_late_settles late (client_client this) digest (now w) limit
              w most lateness Hmost Hlate) as [H1 H2].
  split; [exact H1|]. lia.
Qed.

Lemma waitForTransaction_settles_in_time_witness :
  let run :=
    Timers.waitForTransaction_late (fun t => if t <? 1500 then 5%N else 2%N)
      reader "D3" (Some 3000) dawn in
  now dawn <= now run.2 /\
  now run.2 - now dawn <= Z.max 0 (3000 + Z.of_N 200 + 1000 + Z.of_N 5).
Proof.
  apply (waitForTransaction_settles_in_time
           (fun t => if t <? 1500 then 5%N else 2%N) reader "D3" (Some 3000)
           dawn 200 5).
  - intros t. cbn. destruct (t <? 2500); cbn; lia.
  - intros t. destruct (t <? 1500); lia.
Defined.

(** On such a node a wait of three seconds, with timers that are 5 ms late
    at first and 2 ms late after, gives up after 3012 ms: three pauses. *)
Example waitForTransaction_late_gives_up :
  Timers.waitForTransaction_late (fun t => if t <? 1500 then 5%N else 2%N)
    reader "D3" (Some 3000) dawn
  = (Thrown (Error "Transaction confirmation timeout"),
     {| now := 3012;
        trace := [QueriedTransaction "D3" 0; Slept 1000;
                  QueriedTransaction "D3" 1005; Slept 1000;
                  QueriedTransaction "D3" 2010; Slept 1000] |}).
Proof.
  vm_compute. reflexivity.
Qed.

End SettlingFacts.

Section FlowSamplesFacts.
Import Sdk Flows SdkSamples FlowSamples.

Lemma handleX402Flow_signs_only_what_was_asked_witness :
  exists signedTx answer body,
    fetch_post shop "https://shop/content/0xa/execute" signedTx
    = Returned answer /\
    ok answer = true /\
    json answer = Returned body /\
    body_digest body = "D1".
Proof.
  destruct (handleX402Flow_signs_only_what_was_asked buyer_key shop
              "https://shop" "0xa" buyer dawn)
    as [[[e He] _]|(response & payment & _ & _ & _ & _ & _ & _ & Hd)].
  - vm_compute in He. discriminate He.
  - destruct (Hd "D1") as (answer & body & H); [vm_compute; reflexivity|].
    eexists _, answer, body. exact H.
Defined.

Lemma createContent_returns_first_shared_witness :
  exists before contentObject after,
    [{| owner := AddressOwner "0xc"; reference_objectId := "0x9" |};
     {| owner := Shared 7; reference_objectId := "0xa" |}]
    = before ++ contentObject :: after /\
    is_shared contentObject = true /\
    forallb (fun obj => negb (is_shared obj)) before = true /\
    reference_objectId contentObject = "0xa".
Proof.
  pose proof (createContent_returns_first_shared creation_answer
                decimal_u64 sponsored_server "Premium Article"
                "An exclusive article" "1000000000"
                "https://content.example.com/a"
                {| toSuiAddress := "0xc";
                   signTransaction := fun _ => EmptyString |} dawn)
    as [_ H].
  vm_compute in H. destruct H as [H _]. exact (H "0xa" eq_refl).
Defined.

(** A price that is not a number never reaches the node. *)
Example createContent_rejects_price :
  createContent decimal_u64 creation_answer sponsored_server
    "Premium Article" "An exclusive article" "abc"
    "https://content.example.com/a"
    {| toSuiAddress := "0xc"; signTransaction := fun _ => EmptyString |}
    dawn
  = (Thrown (Error "Invalid u64"), dawn).
Proof. vm_compute. reflexivity. Qed.

Lemma getContentDetails_never_throws_witness :
  exists details,
    (getContentDetails latin1 object_answer plain_server "0xa" dawn).1
    = Returned (Some details) /\
    details_id details = "0xa" /\
    details_title details = "Hi" /\
    details_price details = JsString "1000000000".
Proof.
  pose proof (getContentDetails_never_throws latin1 object_answer
                plain_server "0xa" dawn) as (_ & _ & _ & H).
  eexists. split; [vm_compute; reflexivity|].
  split; [|split; reflexivity].
  apply (H _ eq_refl).
Defined.

Lemma getAccessReceipts_lists_owned_receipts_witness :
  exists receipts,
    (getAccessReceipts latin1 reader "0xb0b" dawn).1 = Returned receipts /\
    map (fun receipt => (receipt_id receipt, Sdk.contentId receipt)) receipts
    = [("0x71", "0xa")] /\
    length receipts = 1%nat.
Proof.
  apply (proj1 (getAccessReceipts_lists_owned_receipts latin1 reader "0xb0b"
                  dawn)
           [receipt_object "0x71" "0xa"]); reflexivity.
Defined.

End FlowSamplesFacts.
